(** * Text-adventure engine: world-state store, command parser, command
      handlers and quest check, embedded from the JavaScript sources
      (models/game-state.js, models/quest.js, models/generic-item.js,
      the UniqueItem / Location / Game models and the GameEngine class).

    Conventions of the embedding
    - JavaScript strings are [string]; only the ASCII part of
      [toLowerCase], [trim] and the regular-expression class [\s] is
      modelled.
    - JavaScript integers are [Z]; [NaN], fractions and infinities are not
      represented.
    - An object used as a table and only read by key is a [gmap string _];
      [uniqueItemLocations], whose [Object.keys] order decides which item a
      name resolves to, is an insertion-ordered association list.
      Keys that look like array indices, which [Object.keys] lists first,
      are not treated specially.
    - [null] / [undefined] are [None]; a test [if (x)] on a string-or-null
      value is [truthy], which also rejects the empty string.
    - Properties inherited from [Object.prototype] are not modelled.
    - Objects are values: the stack objects a new store shares with the
      [contents] of the world definition, and the tables a restored store
      shares with the record it was built from, are copies here.  The
      engine never reads [contents] after construction. *)

From stdpp Require Import base numbers option list strings gmap.
From Stdlib Require Import Ascii String DecimalString.

Local Open Scope string_scope.
Local Open Scope Z_scope.

(** ** JavaScript string primitives *)
Module Js.

Definition lowerAscii (c : ascii) : ascii :=
  let n := nat_of_ascii c in
  if (Nat.leb 65 n && Nat.leb n 90)%bool then ascii_of_nat (n + 32)%nat else c.

Fixpoint toLowerCase (s : string) : string :=
  match s with
  | EmptyString => EmptyString
  | String c r => String (lowerAscii c) (toLowerCase r)
  end.

(** [\s] restricted to ASCII: space, tab, line feed, vertical tab, form
    feed, carriage return. *)
Definition isSpace (c : ascii) : bool :=
  let n := nat_of_ascii c in
  (Nat.eqb n 32 || (Nat.leb 9 n && Nat.leb n 13))%bool.

(** Line terminators, the characters [.] does not match. *)
Definition isLineTerminator (c : ascii) : bool :=
  let n := nat_of_ascii c in (Nat.eqb n 10 || Nat.eqb n 13)%bool.

Fixpoint trimStart (s : string) : string :=
  match s with
  | String c r => if isSpace c then trimStart r else s
  | EmptyString => EmptyString
  end.

Fixpoint allSpace (s : string) : bool :=
  match s with
  | EmptyString => true
  | String c r => (isSpace c && allSpace r)%bool
  end.

Fixpoint trimEnd (s : string) : string :=
  match s with
  | EmptyString => EmptyString
  | String c r => if allSpace s then EmptyString else String c (trimEnd r)
  end.

Definition trim (s : string) : string := trimEnd (trimStart s).

(** [s.split(/\s+/)]: the pieces between maximal runs of white space; a
    leading or trailing run yields an empty piece, as in JavaScript. *)
Fixpoint splitGo (s : string) (cur : string) (inGap : bool) : list string :=
  match s with
  | EmptyString => [cur]
  | String c r =>
      if isSpace c
      then (if inGap then splitGo r cur true else cur :: splitGo r EmptyString true)
      else splitGo r (cur +:+ String c EmptyString) false
  end.

Definition splitWs (s : string) : list string := splitGo s EmptyString false.

Fixpoint startsWith (s p : string) : bool :=
  match p, s with
  | EmptyString, _ => true
  | String a p', String b s' => (Ascii.eqb a b && startsWith s' p')%bool
  | String _ _, EmptyString => false
  end.

(** [s.includes(sub)] *)
Fixpoint includes (s sub : string) : bool :=
  (startsWith s sub ||
   match s with
   | EmptyString => false
   | String _ r => includes r sub
   end)%bool.

Fixpoint join (sep : string) (l : list string) : string :=
  match l with
  | [] => EmptyString
  | [x] => x
  | x :: r => x +:+ sep +:+ join sep r
  end.

(** The double-quote character and the line feed, as one-character
    strings. *)
Definition dquote : string := String "034"%char EmptyString.
Definition nl : string := String "010"%char EmptyString.

(** Template-literal rendering of an integer. *)
Definition ofZ (z : Z) : string := NilZero.string_of_int (Z.to_int z).

(** [l.includes(x)] for an array of strings. *)
Definition arrayIncludes (l : list string) (x : string) : bool :=
  existsb (String.eqb x) l.

(** [if (x)] for a value that is a string, [null] or [undefined]. *)
Definition truthy (o : option string) : bool :=
  match o with
  | Some s => negb (String.eqb s EmptyString)
  | None => false
  end.

(** [a || b] for such values. *)
Definition orElse (a b : option string) : option string :=
  if truthy a then a else b.

(** [a || "literal"]. *)
Definition orDefault (a : option string) (d : string) : string :=
  match a with
  | Some s => if String.eqb s EmptyString then d else s
  | None => d
  end.

(** A [null] used as a property key or inside a template literal. *)
Definition keyOf (o : option string) : string :=
  match o with Some s => s | None => "null" end.

(** Values stored in flag tables. *)
Inductive value : Type :=
  | VNull
  | VBool (b : bool)
  | VNum (n : Z)
  | VStr (s : string).

Definition truthyValue (v : value) : bool :=
  match v with
  | VNull => false
  | VBool b => b
  | VNum n => negb (n =? 0)
  | VStr s => negb (String.eqb s EmptyString)
  end.

End Js.

(** ** Insertion-ordered objects (for [Object.keys]) *)
Module JsObject.

Definition t (V : Type) : Type := list (string * V).

Fixpoint get {V} (o : t V) (k : string) : option V :=
  match o with
  | [] => None
  | (k', v) :: r => if String.eqb k' k then Some v else get r k
  end.

(** [o[k] = v]: an existing key keeps its position, a new key goes last. *)
Fixpoint set {V} (o : t V) (k : string) (v : V) : t V :=
  match o with
  | [] => [(k, v)]
  | (k', v') :: r =>
      if String.eqb k' k then (k', v) :: r else (k', v') :: set r k v
  end.

Definition keys {V} (o : t V) : list string := List.map fst o.

End JsObject.

(** ** Records of the state store (models/game-state.js) *)

(** One generic-item stack, [{itemId, quantity}]. *)
Module Stack.
Record t : Type := mk { itemId : string; quantity : Z }.
End Stack.

(** An entry of [containerStates]. *)
Module ContainerState.
Record t : Type := mk { isLocked : bool; isOpen : bool }.
End ContainerState.

(** An entry of [exitStates]. *)
Module ExitState.
Record t : Type := mk { isLocked : bool }.
End ExitState.

(** An entry of [players]. *)
Module PlayerData.
Record t : Type := mk {
  currentLocation : string;
  score : Z;
  turnCount : Z;
  visitedLocations : list string;
  flags : gmap string Js.value
}.
End PlayerData.

(** ** GameState: the fields and every method that needs no world
    definition.  The optional [playerId] argument of the JavaScript methods
    is an [option string]. *)
Module GameState.

Record t : Type := mk {
  gameId : option string;
  players : gmap string PlayerData.t;
  activePlayerId : option string;
  uniqueItemLocations : JsObject.t (option string);
  genericItemStacks : gmap string (list Stack.t);
  npcLocations : JsObject.t string;
  containerStates : gmap string ContainerState.t;
  exitStates : gmap string ExitState.t;
  flags : gmap string Js.value;
  questStates : gmap string string
}.

Definition withPlayers (s : t) (v : gmap string PlayerData.t) : t :=
  mk (gameId s) v (activePlayerId s) (uniqueItemLocations s) (genericItemStacks s)
     (npcLocations s) (containerStates s) (exitStates s) (flags s) (questStates s).
Definition withActivePlayerId (s : t) (v : option string) : t :=
  mk (gameId s) (players s) v (uniqueItemLocations s) (genericItemStacks s)
     (npcLocations s) (containerStates s) (exitStates s) (flags s) (questStates s).
Definition withUniqueItemLocations (s : t) (v : JsObject.t (option string)) : t :=
  mk (gameId s) (players s) (activePlayerId s) v (genericItemStacks s)
     (npcLocations s) (containerStates s) (exitStates s) (flags s) (questStates s).
Definition withGenericItemStacks (s : t) (v : gmap string (list Stack.t)) : t :=
  mk (gameId s) (players s) (activePlayerId s) (uniqueItemLocations s) v
     (npcLocations s) (containerStates s) (exitStates s) (flags s) (questStates s).
Definition withContainerStates (s : t) (v : gmap string ContainerState.t) : t :=
  mk (gameId s) (players s) (activePlayerId s) (uniqueItemLocations s) (genericItemStacks s)
     (npcLocations s) v (exitStates s) (flags s) (questStates s).
Definition withExitStates (s : t) (v : gmap string ExitState.t) : t :=
  mk (gameId s) (players s) (activePlayerId s) (uniqueItemLocations s) (genericItemStacks s)
     (npcLocations s) (containerStates s) v (flags s) (questStates s).
Definition withFlags (s : t) (v : gmap string Js.value) : t :=
  mk (gameId s) (players s) (activePlayerId s) (uniqueItemLocations s) (genericItemStacks s)
     (npcLocations s) (containerStates s) (exitStates s) v (questStates s).
Definition withQuestStates (s : t) (v : gmap string string) : t :=
  mk (gameId s) (players s) (activePlayerId s) (uniqueItemLocations s) (genericItemStacks s)
     (npcLocations s) (containerStates s) (exitStates s) (flags s) v.

(** [playerId || this.activePlayerId] *)
Definition pidOf (s : t) (playerId : option string) : option string :=
  Js.orElse playerId (activePlayerId s).

(** [`inventory-${pid}`] *)
Definition inventoryKey (pid : option string) : string :=
  "inventory-" +:+ Js.keyOf pid.

(** The rewriting of the place name ['inventory'] that opens the
    generic-item methods. *)
Definition resolveContainer (s : t) (containerId : string)
    (playerId : option string) : string :=
  if String.eqb containerId "inventory"
  then inventoryKey (pidOf s playerId) else containerId.

(** *** Player management *)

Definition addPlayer (s : t) (playerId startLocation : string) : t :=
  match players s !! playerId with
  | Some _ => s
  | None =>
      let s1 := withPlayers s
        (<[playerId := PlayerData.mk startLocation 0 0 [startLocation] ∅]> (players s)) in
      if Js.truthy (activePlayerId s1) then s1
      else withActivePlayerId s1 (Some playerId)
  end.

Definition getActivePlayer (s : t) : option PlayerData.t :=
  players s !! Js.keyOf (activePlayerId s).

Definition getPlayer (s : t) (playerId : string) : option PlayerData.t :=
  players s !! playerId.

Definition setActivePlayer (s : t) (playerId : string) : t :=
  match players s !! playerId with
  | Some _ => withActivePlayerId s (Some playerId)
  | None => s
  end.

Definition getCurrentLocation (s : t) : option string :=
  match getActivePlayer s with
  | Some p => Some (PlayerData.currentLocation p)
  | None => None
  end.

(** *** Player movement *)

Definition movePlayer (s : t) (locationId : string) (playerId : option string) : t :=
  let pid := Js.keyOf (pidOf s playerId) in
  match players s !! pid with
  | None => s
  | Some p =>
      let visited :=
        if Js.arrayIncludes (PlayerData.visitedLocations p) locationId
        then PlayerData.visitedLocations p
        else (PlayerData.visitedLocations p ++ [locationId])%list in
      withPlayers s
        (<[pid := PlayerData.mk locationId (PlayerData.score p)
                    (PlayerData.turnCount p + 1) visited (PlayerData.flags p)]>
           (players s))
  end.

Definition hasVisitedLocation (s : t) (locationId : string)
    (playerId : option string) : bool :=
  match players s !! Js.keyOf (pidOf s playerId) with
  | Some p => Js.arrayIncludes (PlayerData.visitedLocations p) locationId
  | None => false
  end.

(** *** Unique items *)

(** A unique item's entry holds a place name, or [null] after a drop made
    while no player is active; [recordedPlace] is [this.uniqueItemLocations[itemId]]
    with a missing entry and a [null] entry both read as [None]. *)
Definition recordedPlace (s : t) (itemId : string) : option string :=
  mjoin (JsObject.get (uniqueItemLocations s) itemId).

Definition getUniqueItemLocation (s : t) (itemId : string) : option string :=
  Js.orElse (recordedPlace s itemId) None.

Definition moveUniqueItem (s : t) (itemId : string) (toLocation : option string)
    (playerId : option string) : t :=
  let dest := if bool_decide (toLocation = Some "inventory")
              then Some (inventoryKey (pidOf s playerId)) else toLocation in
  withUniqueItemLocations s (JsObject.set (uniqueItemLocations s) itemId dest).

Definition isUniqueItemInInventory (s : t) (itemId : string)
    (playerId : option string) : bool :=
  bool_decide (recordedPlace s itemId = Some (inventoryKey (pidOf s playerId))).

Definition isUniqueItemAtLocation (s : t) (itemId locationId : string) : bool :=
  bool_decide (recordedPlace s itemId = Some locationId).

Definition getUniqueItemsAtLocation (s : t) (locationId : string) : list string :=
  List.filter (fun itemId => isUniqueItemAtLocation s itemId locationId)
              (JsObject.keys (uniqueItemLocations s)).

Definition getUniqueItemsInInventory (s : t) (playerId : option string) : list string :=
  getUniqueItemsAtLocation s (inventoryKey (pidOf s playerId)).

(** *** Generic items *)

Definition isItem (itemId : string) (st : Stack.t) : bool :=
  String.eqb (Stack.itemId st) itemId.

Definition getGenericItemStack (s : t) (containerId itemId : string)
    (playerId : option string) : option Stack.t :=
  let cid := resolveContainer s containerId playerId in
  match genericItemStacks s !! cid with
  | None => None
  | Some stacks => List.find (isItem itemId) stacks
  end.

Definition getGenericItemQuantity (s : t) (containerId itemId : string)
    (playerId : option string) : Z :=
  match getGenericItemStack s containerId itemId playerId with
  | Some st => Stack.quantity st
  | None => 0
  end.

(** In-place update of the stack object that [find] returned: the first
    stack of the kind. *)
Fixpoint updateFirst (itemId : string) (f : Z -> Z) (l : list Stack.t) : list Stack.t :=
  match l with
  | [] => []
  | st :: r =>
      if isItem itemId st
      then Stack.mk (Stack.itemId st) (f (Stack.quantity st)) :: r
      else st :: updateFirst itemId f r
  end.

Definition addGenericItems (s : t) (containerId itemId : string) (quantity : Z)
    (playerId : option string) : t :=
  let cid := resolveContainer s containerId playerId in
  let s1 := match genericItemStacks s !! cid with
            | Some _ => s
            | None => withGenericItemStacks s (<[cid := []]> (genericItemStacks s))
            end in
  let stacks := default [] (genericItemStacks s1 !! cid) in
  match getGenericItemStack s1 cid itemId playerId with
  | Some _ =>
      withGenericItemStacks s1
        (<[cid := updateFirst itemId (fun n => n + quantity) stacks]>
           (genericItemStacks s1))
  | None =>
      withGenericItemStacks s1
        (<[cid := (stacks ++ [Stack.mk itemId quantity])%list]> (genericItemStacks s1))
  end.

Definition removeGenericItems (s : t) (containerId itemId : string) (quantity : Z)
    (playerId : option string) : bool * t :=
  let cid := resolveContainer s containerId playerId in
  match genericItemStacks s !! cid with
  | None => (false, s)
  | Some stacks =>
      match getGenericItemStack s cid itemId playerId with
      | None => (false, s)
      | Some st =>
          if Stack.quantity st <? quantity then (false, s)
          else
            let stacks1 := updateFirst itemId (fun n => n - quantity) stacks in
            let stacks2 :=
              if Stack.quantity st - quantity =? 0
              then List.filter (fun x => negb (isItem itemId x)) stacks1
              else stacks1 in
            (true, withGenericItemStacks s (<[cid := stacks2]> (genericItemStacks s)))
      end
  end.

Definition transferGenericItems (s : t) (fromContainerId toContainerId itemId : string)
    (quantity : Z) (playerId : option string) : bool * t :=
  match removeGenericItems s fromContainerId itemId quantity playerId with
  | (true, s1) => (true, addGenericItems s1 toContainerId itemId quantity playerId)
  | (false, s1) => (false, s1)
  end.

Definition getGenericItemStacksAt (s : t) (containerId : string)
    (playerId : option string) : list Stack.t :=
  default [] (genericItemStacks s !! resolveContainer s containerId playerId).

Definition hasGenericItems (s : t) (containerId : string)
    (playerId : option string) : bool :=
  match getGenericItemStacksAt s containerId playerId with
  | [] => false
  | _ :: _ => true
  end.

(** *** Container states *)

Definition getContainerState (s : t) (containerId : string) : ContainerState.t :=
  default (ContainerState.mk false true) (containerStates s !! containerId).

Definition isContainerLocked (s : t) (containerId : string) : bool :=
  ContainerState.isLocked (getContainerState s containerId).

Definition isContainerOpen (s : t) (containerId : string) : bool :=
  ContainerState.isOpen (getContainerState s containerId).

Definition unlockContainer (s : t) (containerId : string) : t :=
  let cur := default (ContainerState.mk false false) (containerStates s !! containerId) in
  withContainerStates s
    (<[containerId := ContainerState.mk false (ContainerState.isOpen cur)]>
       (containerStates s)).

Definition openContainer (s : t) (containerId : string) : t :=
  let cur := default (ContainerState.mk false true) (containerStates s !! containerId) in
  withContainerStates s
    (<[containerId := ContainerState.mk (ContainerState.isLocked cur) true]>
       (containerStates s)).

Definition closeContainer (s : t) (containerId : string) : t :=
  let cur := default (ContainerState.mk false false) (containerStates s !! containerId) in
  withContainerStates s
    (<[containerId := ContainerState.mk (ContainerState.isLocked cur) false]>
       (containerStates s)).

Definition lockContainer (s : t) (containerId : string) : t :=
  let cur := default (ContainerState.mk true false) (containerStates s !! containerId) in
  withContainerStates s
    (<[containerId := ContainerState.mk true (ContainerState.isOpen cur)]>
       (containerStates s)).

(** *** Exit states *)

(** [`${locationId}-${direction}`] *)
Definition exitKey (locationId direction : string) : string :=
  locationId +:+ "-" +:+ direction.

Definition getExitState (s : t) (locationId direction : string) : ExitState.t :=
  default (ExitState.mk false) (exitStates s !! exitKey locationId direction).

Definition isExitLocked (s : t) (locationId direction : string) : bool :=
  ExitState.isLocked (getExitState s locationId direction).

Definition unlockExit (s : t) (locationId direction : string) : t :=
  withExitStates s
    (<[exitKey locationId direction := ExitState.mk false]> (exitStates s)).

Definition lockExit (s : t) (locationId direction : string) : t :=
  withExitStates s
    (<[exitKey locationId direction := ExitState.mk true]> (exitStates s)).

(** *** Flags *)

Definition setFlag (s : t) (key : string) (v : Js.value) : t :=
  withFlags s (<[key := v]> (flags s)).

(** [getFlag(key)] with the default [null]. *)
Definition getFlag (s : t) (key : string) : Js.value :=
  default Js.VNull (flags s !! key).

Definition hasFlag (s : t) (key : string) : bool :=
  bool_decide (is_Some (flags s !! key)).

Definition removeFlag (s : t) (key : string) : t :=
  withFlags s (delete key (flags s)).

(** *** Quest states *)

Definition setQuestState (s : t) (questId state : string) : t :=
  withQuestStates s (<[questId := state]> (questStates s)).

Definition getQuestState (s : t) (questId : string) : option string :=
  Js.orElse (questStates s !! questId) None.

Definition isQuestActive (s : t) (questId : string) : bool :=
  bool_decide (questStates s !! questId = Some "active").

Definition isQuestCompleted (s : t) (questId : string) : bool :=
  bool_decide (questStates s !! questId = Some "completed").

(** *** Score and statistics *)

Definition addScore (s : t) (points : Z) (playerId : option string) : t :=
  let pid := Js.keyOf (pidOf s playerId) in
  match players s !! pid with
  | None => s
  | Some p =>
      withPlayers s
        (<[pid := PlayerData.mk (PlayerData.currentLocation p)
                    (PlayerData.score p + points) (PlayerData.turnCount p)
                    (PlayerData.visitedLocations p) (PlayerData.flags p)]>
           (players s))
  end.

Definition getScore (s : t) (playerId : option string) : Z :=
  match players s !! Js.keyOf (pidOf s playerId) with
  | Some p => PlayerData.score p
  | None => 0
  end.

Definition getTurnCount (s : t) (playerId : option string) : Z :=
  match players s !! Js.keyOf (pidOf s playerId) with
  | Some p => PlayerData.turnCount p
  | None => 0
  end.

(** *** NPCs *)

Definition withNpcLocations (s : t) (v : JsObject.t string) : t :=
  mk (gameId s) (players s) (activePlayerId s) (uniqueItemLocations s) (genericItemStacks s)
     v (containerStates s) (exitStates s) (flags s) (questStates s).

Definition getNPCLocation (s : t) (npcId : string) : option string :=
  Js.orElse (JsObject.get (npcLocations s) npcId) None.

Definition moveNPC (s : t) (npcId toLocation : string) : t :=
  withNpcLocations s (JsObject.set (npcLocations s) npcId toLocation).

Definition isNPCAtLocation (s : t) (npcId locationId : string) : bool :=
  bool_decide (JsObject.get (npcLocations s) npcId = Some locationId).

Definition getNPCsAtLocation (s : t) (locationId : string) : list string :=
  List.filter (fun npcId => isNPCAtLocation s npcId locationId)
              (JsObject.keys (npcLocations s)).

(** *** Per-player flags *)

(** The player record with its flag table replaced. *)
Definition withPlayerFlags (p : PlayerData.t) (v : gmap string Js.value) : PlayerData.t :=
  PlayerData.mk (PlayerData.currentLocation p) (PlayerData.score p)
    (PlayerData.turnCount p) (PlayerData.visitedLocations p) v.

Definition setPlayerFlag (s : t) (key : string) (value : Js.value)
    (playerId : option string) : t :=
  let pid := Js.keyOf (pidOf s playerId) in
  match players s !! pid with
  | None => s
  | Some p =>
      withPlayers s (<[pid := withPlayerFlags p (<[key := value]> (PlayerData.flags p))]>
                       (players s))
  end.

Definition getPlayerFlag (s : t) (key : string) (defaultValue : Js.value)
    (playerId : option string) : Js.value :=
  match players s !! Js.keyOf (pidOf s playerId) with
  | None => defaultValue
  | Some p => default defaultValue (PlayerData.flags p !! key)
  end.

(** The truth value of what [hasPlayerFlag] returns. *)
Definition hasPlayerFlag (s : t) (key : string) (playerId : option string) : bool :=
  match players s !! Js.keyOf (pidOf s playerId) with
  | None => false
  | Some p => bool_decide (is_Some (PlayerData.flags p !! key))
  end.

Definition removePlayerFlag (s : t) (key : string) (playerId : option string) : t :=
  let pid := Js.keyOf (pidOf s playerId) in
  match players s !! pid with
  | None => s
  | Some p =>
      withPlayers s (<[pid := withPlayerFlags p (delete key (PlayerData.flags p))]>
                       (players s))
  end.

End GameState.

(** ** World definition (the Location, UniqueItem, GenericItem, Quest and
    Game models).  Only the fields the engine reads are kept. *)

(** An exit structure [{direction, leadsTo, locked, lockedMessage,
    requiredItem}]. *)
Module Exit.
Record t : Type := mk {
  direction : string;
  leadsTo : string;
  locked : bool;
  lockedMessage : option string;
  requiredItem : option string
}.
End Exit.

Module Location.
Record t : Type := mk {
  id : string;
  name : string;
  description : string;
  exits : list Exit.t
}.
End Location.

Module UniqueItem.
Record t : Type := mk {
  id : string;
  name : string;
  description : string;
  location : option string;
  takeable : bool;
  visible : bool;
  usable : bool;
  isContainer : bool;
  contents : list Stack.t;
  isLocked : bool;
  isClosed : bool;
  requiredKey : option string;
  lockedMessage : option string;
  closedMessage : option string;
  examineText : string;
  takeText : option string;
  dropText : option string;
  useText : option string;
  cantTakeText : option string;
  openText : option string;
  usesWith : option (list string)
}.

Definition canTake (i : t) : bool := takeable i && visible i.

Definition getTakeMessage (i : t) : string :=
  Js.orDefault (takeText i) ("You take the " +:+ name i +:+ ".").

Definition getDropMessage (i : t) : string :=
  Js.orDefault (dropText i) ("You drop the " +:+ name i +:+ ".").

Definition getUseMessage (i : t) : string :=
  Js.orDefault (useText i) ("You use the " +:+ name i +:+ ".").

Definition getCantTakeMessage (i : t) : string :=
  Js.orDefault (cantTakeText i) ("You can't take the " +:+ name i +:+ ".").

Definition getOpenMessage (i : t) : string :=
  Js.orDefault (openText i)
    (if isContainer i then "You open the " +:+ name i +:+ "."
     else "You can't open the " +:+ name i +:+ ".").

(** [usesWith] is [None] when absent, a list for an array, a one-element
    list for a single id. *)
Definition canUseWith (i : t) (targetId : string) : bool :=
  if negb (usable i) then false
  else match usesWith i with
       | None => true
       | Some l => existsb (String.eqb targetId) l
       end.
End UniqueItem.

Module GenericItem.
Record t : Type := mk {
  id : string;
  name : string;
  namePlural : string;
  description : string;
  examineText : string
}.

Definition getDisplayName (i : t) (quantity : Z) : string :=
  if quantity =? 1 then name i else namePlural i.

Definition getDescription (i : t) (quantity : Z) : string :=
  let n := getDisplayName i quantity in
  if 1 <? quantity then Js.ofZ quantity +:+ " " +:+ n else n.
End GenericItem.

Module Objective.
Record t : Type := mk { id : string; description : string; required : bool }.
End Objective.

Module Quest.
Record t : Type := mk {
  id : string;
  name : string;
  description : string;
  isMainQuest : bool;
  initialState : string;
  objectives : list Objective.t;
  requireAllObjectives : bool;
  scoreReward : Z;
  itemRewards : list string;
  completionCheck : option (GameState.t -> bool);
  startMessage : option string;
  completionMessage : option string
}.

(** [`quest-${this.id}-objective-${obj.id}`] *)
Definition objectiveFlag (q : t) (o : Objective.t) : string :=
  "quest-" +:+ id q +:+ "-objective-" +:+ Objective.id o.

Definition objectiveDone (gameState : GameState.t) (q : t) (o : Objective.t) : bool :=
  Js.truthyValue (GameState.getFlag gameState (objectiveFlag q o)).

Definition isComplete (q : t) (gameState : GameState.t) : bool :=
  if negb (bool_decide (GameState.getQuestState gameState (id q) = Some "active"))
  then false
  else match completionCheck q with
       | Some check => check gameState
       | None =>
           match objectives q with
           | [] => false
           | _ :: _ =>
               if requireAllObjectives q
               then forallb (fun o => negb (Objective.required o)
                                      || objectiveDone gameState q o)
                            (objectives q)
               else existsb (objectiveDone gameState q) (objectives q)
           end
       end.

Definition getCompletionMessage (q : t) : string :=
  Js.orDefault (completionMessage q)
    ("You have completed the quest: " +:+ name q +:+ "!").
End Quest.

Module Game.
Record t : Type := mk {
  id : string;
  locations : list Location.t;
  genericItems : list GenericItem.t;
  uniqueItems : list UniqueItem.t;
  npcs : list (string * option string);
  quests : list Quest.t
}.

(** The lookup maps are filled with [Map.set] in list order, so the last
    definition of an id is the one a lookup returns. *)
Definition getLocation (g : t) (locationId : string) : option Location.t :=
  List.find (fun l => String.eqb (Location.id l) locationId) (rev (locations g)).

Definition getGenericItem (g : t) (itemId : string) : option GenericItem.t :=
  List.find (fun i => String.eqb (GenericItem.id i) itemId) (rev (genericItems g)).

Definition getUniqueItem (g : t) (itemId : string) : option UniqueItem.t :=
  List.find (fun i => String.eqb (UniqueItem.id i) itemId) (rev (uniqueItems g)).

Definition getQuests (g : t) : list Quest.t := quests g.

Definition getQuest (g : t) (questId : string) : option Quest.t :=
  List.find (fun q => String.eqb (Quest.id q) questId) (rev (quests g)).

Definition getMainQuest (g : t) : option Quest.t :=
  List.find Quest.isMainQuest (quests g).

(** *** Validation.  [validate] and [validateExits] throw on the first
    defect they meet; here they return the message of that error, or
    [None] when the structure is accepted.  The tests [Array.isArray],
    which hold of every list, are left out, and the field
    [startLocation], which nothing else reads, is an argument. *)

(** A [forEach] whose body may throw, over a list with its indices. *)
Fixpoint firstError {A : Type} (check : nat -> A -> option string) (index : nat)
    (l : list A) : option string :=
  match l with
  | [] => None
  | x :: r =>
      match check index x with
      | Some e => Some e
      | None => firstError check (S index) r
      end
  end.

Definition validateLocation (index : nat) (loc : Location.t) : option string :=
  if String.eqb (Location.id loc) EmptyString
  then Some ("Location at index " +:+ Js.ofZ (Z.of_nat index) +:+ " missing id")
  else if String.eqb (Location.name loc) EmptyString
  then Some ("Location " +:+ Location.id loc +:+ " missing name")
  else if String.eqb (Location.description loc) EmptyString
  then Some ("Location " +:+ Location.id loc +:+ " missing description")
  else None.

(** [locationIds.has(id)] *)
Definition hasLocation (g : t) (locationId : string) : bool :=
  existsb (fun loc => String.eqb (Location.id loc) locationId) (locations g).

Definition validateExit (g : t) (location : Location.t) (index : nat) (exit : Exit.t)
    : option string :=
  if String.eqb (Exit.direction exit) EmptyString
  then Some ("Exit at index " +:+ Js.ofZ (Z.of_nat index) +:+ " in location "
             +:+ Location.id location +:+ " missing direction")
  else if String.eqb (Exit.leadsTo exit) EmptyString
  then Some ("Exit " +:+ Exit.direction exit +:+ " in location "
             +:+ Location.id location +:+ " missing leadsTo")
  else if negb (hasLocation g (Exit.leadsTo exit))
  then Some ("Exit " +:+ Exit.direction exit +:+ " in location "
             +:+ Location.id location +:+ " leads to non-existent location: "
             +:+ Exit.leadsTo exit)
  else None.

Definition validateExits (g : t) : option string :=
  firstError (fun _ location =>
                firstError (validateExit g location) 0 (Location.exits location))
             0 (locations g).

Definition validate (startLocation : string) (g : t) : option string :=
  match locations g with
  | [] => Some "Game must have at least one location"
  | _ :: _ =>
      match firstError validateLocation 0 (locations g) with
      | Some e => Some e
      | None =>
          if negb (hasLocation g startLocation)
          then Some ("Start location '" +:+ startLocation
                     +:+ "' not found in locations")
          else
            match quests g, List.filter Quest.isMainQuest (quests g) with
            | _ :: _, [] => Some "Game must have at least one main quest"
            | _ :: _, _ :: _ :: _ => Some "Game can only have one main quest"
            | _, _ => validateExits g
            end
      end
  end.
End Game.

(** ** Construction, serialization and restoration of the state store *)

(** The record [toJSON] produces and the constructor reads back; every
    field may be missing in a stored record.  [currentLocation], [score],
    [turnCount] and [visitedLocations] at top level only occur in saves of
    the single-player format.  The [timestamp] field, which the
    constructor never reads, is left out. *)
Module Snapshot.
Record t : Type := mk {
  gameId : option string;
  currentLocation : option string;
  score : option Z;
  turnCount : option Z;
  visitedLocations : option (list string);
  players : option (gmap string PlayerData.t);
  activePlayerId : option string;
  uniqueItemLocations : option (JsObject.t (option string));
  genericItemStacks : option (gmap string (list Stack.t));
  npcLocations : option (JsObject.t string);
  containerStates : option (gmap string ContainerState.t);
  exitStates : option (gmap string ExitState.t);
  flags : option (gmap string Js.value);
  questStates : option (gmap string string)
}.
End Snapshot.

Definition toJSON (s : GameState.t) : Snapshot.t :=
  Snapshot.mk (GameState.gameId s) None None None None
    (Some (GameState.players s)) (GameState.activePlayerId s)
    (Some (GameState.uniqueItemLocations s))
    (Some (GameState.genericItemStacks s))
    (Some (GameState.npcLocations s))
    (Some (GameState.containerStates s))
    (Some (GameState.exitStates s))
    (Some (GameState.flags s))
    (Some (GameState.questStates s)).

(** The branch of the constructor that loads an existing state.  [now] is
    the value of [Date.now()]. *)
Definition restoreState (now : Z) (e : Snapshot.t) : GameState.t :=
  let legacy := Js.truthy (Snapshot.currentLocation e)
                && negb (bool_decide (is_Some (Snapshot.players e))) in
  let legacyPlayerId := "legacy-player-" +:+ Js.ofZ now in
  let playerInventoryKey := "inventory-" +:+ legacyPlayerId in
  let cur := default EmptyString (Snapshot.currentLocation e) in
  let players :=
    if legacy
    then {[ legacyPlayerId :=
              PlayerData.mk cur (default 0 (Snapshot.score e))
                (default 0 (Snapshot.turnCount e))
                (default [cur] (Snapshot.visitedLocations e)) ∅ ]}
    else default ∅ (Snapshot.players e) in
  let activePlayerId :=
    if legacy then Some legacyPlayerId
    else Js.orElse (Snapshot.activePlayerId e) None in
  let uniqueItemLocations :=
    if legacy
    then option_map
           (List.map (fun kv => if bool_decide (snd kv = Some "inventory")
                                then (fst kv, Some playerInventoryKey) else kv))
           (Snapshot.uniqueItemLocations e)
    else Snapshot.uniqueItemLocations e in
  let genericItemStacks :=
    if legacy
    then option_map
           (fun m => match m !! "inventory" with
                     | Some l => delete "inventory" (<[playerInventoryKey := l]> m)
                     | None => m
                     end)
           (Snapshot.genericItemStacks e)
    else Snapshot.genericItemStacks e in
  GameState.mk (Snapshot.gameId e) players activePlayerId
    (default [] uniqueItemLocations)
    (default ∅ genericItemStacks)
    (default [] (Snapshot.npcLocations e))
    (default ∅ (Snapshot.containerStates e))
    (default ∅ (Snapshot.exitStates e))
    (default ∅ (Snapshot.flags e))
    (default ∅ (Snapshot.questStates e)).

(** The branch of the constructor that initializes a new state from the
    game definition, one [forEach] after the other. *)
Definition initUniqueItem (s : GameState.t) (item : UniqueItem.t) : GameState.t :=
  let s1 := if Js.truthy (UniqueItem.location item)
            then GameState.withUniqueItemLocations s
                   (JsObject.set (GameState.uniqueItemLocations s) (UniqueItem.id item)
                      (UniqueItem.location item))
            else s in
  let s2 := if UniqueItem.isContainer item
               && negb (bool_decide (UniqueItem.contents item = []))
            then GameState.withGenericItemStacks s1
                   (<[UniqueItem.id item := UniqueItem.contents item]>
                      (GameState.genericItemStacks s1))
            else s1 in
  if UniqueItem.isContainer item
  then GameState.withContainerStates s2
         (<[UniqueItem.id item :=
              ContainerState.mk (UniqueItem.isLocked item)
                                (negb (UniqueItem.isClosed item))]>
            (GameState.containerStates s2))
  else s2.

Definition initNpc (s : GameState.t) (npc : string * option string) : GameState.t :=
  if Js.truthy (snd npc)
  then GameState.mk (GameState.gameId s) (GameState.players s)
         (GameState.activePlayerId s) (GameState.uniqueItemLocations s)
         (GameState.genericItemStacks s)
         (JsObject.set (GameState.npcLocations s) (fst npc) (default EmptyString (snd npc)))
         (GameState.containerStates s) (GameState.exitStates s)
         (GameState.flags s) (GameState.questStates s)
  else s.

Definition initQuest (s : GameState.t) (quest : Quest.t) : GameState.t :=
  GameState.withQuestStates s
    (<[Quest.id quest := Js.orDefault (Some (Quest.initialState quest)) "inactive"]>
       (GameState.questStates s)).

(** [exit.locked || (exit.requiredItem ? true : false)] *)
Definition initialExitLock (exit : Exit.t) : bool :=
  Exit.locked exit || Js.truthy (Exit.requiredItem exit).

Definition initExit (locationId : string) (s : GameState.t) (exit : Exit.t)
    : GameState.t :=
  GameState.withExitStates s
    (<[GameState.exitKey locationId (Exit.direction exit) :=
         ExitState.mk (initialExitLock exit)]> (GameState.exitStates s)).

Definition initLocation (s : GameState.t) (location : Location.t) : GameState.t :=
  fold_left (initExit (Location.id location)) (Location.exits location) s.

Definition newState (game : Game.t) : GameState.t :=
  let s0 := GameState.mk (Some (Game.id game)) ∅ None [] ∅ [] ∅ ∅ ∅ ∅ in
  let s1 := fold_left initUniqueItem (Game.uniqueItems game) s0 in
  let s2 := fold_left initNpc (Game.npcs game) s1 in
  let s3 := fold_left initQuest (Game.quests game) s2 in
  fold_left initLocation (Game.locations game) s3.

(** [new GameState(game, existingState)] *)
Definition constructor (now : Z) (game : Game.t) (existingState : option Snapshot.t)
    : GameState.t :=
  match existingState with
  | Some e => restoreState now e
  | None => newState game
  end.

(** [GameState.fromJSON(game, data)] *)
Definition fromJSON (now : Z) (game : Game.t) (data : option Snapshot.t)
    : GameState.t :=
  constructor now game data.

(** ** Command parser (GameEngine, "PHASE 1 PARSER") *)

Inductive Verb : Type :=
  | LOOK | GO | NORTH | SOUTH | EAST | WEST | UP | DOWN | TAKE | DROP | END_
  | INVENTORY | EXAMINE | OPEN | UNLOCK | LOCK | CLOSE | USE | PUT | QUEST | QUESTS.

Global Instance Verb_eq_dec : EqDecision Verb.
Proof. solve_decision. Defined.

(** The canonical names, lower-cased as [verb.toLowerCase()] gives them;
    [END_] stands for ['END']. *)
Definition verbLower (v : Verb) : string :=
  match v with
  | LOOK => "look" | GO => "go" | NORTH => "north" | SOUTH => "south"
  | EAST => "east" | WEST => "west" | UP => "up" | DOWN => "down"
  | TAKE => "take" | DROP => "drop" | END_ => "end" | INVENTORY => "inventory"
  | EXAMINE => "examine" | OPEN => "open" | UNLOCK => "unlock" | LOCK => "lock"
  | CLOSE => "close" | USE => "use" | PUT => "put" | QUEST => "quest"
  | QUESTS => "quests"
  end.

Definition verbSynonyms : list (Verb * list string) :=
  [ (LOOK, ["look"; "l"; "examine room"; "describe"]);
    (GO, ["go"; "walk"; "run"; "move"; "head"; "travel"]);
    (NORTH, ["north"; "n"]);
    (SOUTH, ["south"; "s"]);
    (EAST, ["east"; "e"]);
    (WEST, ["west"; "w"]);
    (UP, ["up"; "u"; "climb up"]);
    (DOWN, ["down"; "d"; "climb down"]);
    (TAKE, ["take"; "get"; "grab"; "pick up"; "pick"; "acquire"]);
    (DROP, ["drop"; "discard"; "put down"; "leave"]);
    (END_, ["end"; "end turn"; "wait"; "pass"]);
    (INVENTORY, ["inventory"; "i"; "inv"]);
    (EXAMINE, ["examine"; "ex"; "x"; "inspect"; "look at"; "check"]);
    (OPEN, ["open"; "look inside"; "look in"]);
    (UNLOCK, ["unlock"]);
    (LOCK, ["lock"]);
    (CLOSE, ["close"; "shut"]);
    (USE, ["use"; "employ"; "activate"]);
    (PUT, ["put"; "place"; "insert"]);
    (QUEST, ["quest"; "q"; "mission"]);
    (QUESTS, ["quests"; "missions"; "objectives"]) ].

Definition prepositions : list string :=
  ["in"; "into"; "inside"; "on"; "onto"; "at"; "to"; "from"; "with"; "using"].

Definition articles : list string := ["a"; "an"; "the"; "some"; "my"].

(** A quantity of a parsed command: a number or the word ['all']. *)
Inductive Quantity : Type :=
  | QNum (n : Z)
  | QAll.

Definition numberWords : list (string * Quantity) :=
  [ ("one", QNum 1); ("two", QNum 2); ("three", QNum 3); ("four", QNum 4);
    ("five", QNum 5); ("six", QNum 6); ("seven", QNum 7); ("eight", QNum 8);
    ("nine", QNum 9); ("ten", QNum 10); ("all", QAll); ("everything", QAll) ].

Definition tokenize (input : string) : list string :=
  List.filter (fun word => negb (Js.arrayIncludes articles word))
    (Js.splitWs (Js.trim (Js.toLowerCase input))).

(** The [for ... of Object.entries] loop of [normalizeVerb]. *)
Fixpoint normalizeVerbIn (table : list (Verb * list string)) (word : string)
    : option Verb :=
  match table with
  | [] => None
  | (canonical, synonyms) :: rest =>
      if Js.arrayIncludes synonyms word then Some canonical
      else normalizeVerbIn rest word
  end.

Definition normalizeVerb (word : string) : option Verb :=
  normalizeVerbIn verbSynonyms word.

Definition isPreposition (word : string) : bool := Js.arrayIncludes prepositions word.

(** The result object of [matchPattern] / [parseObjects]. *)
Record Parsed : Type := mkParsed {
  verb : Verb;
  quantity : option Quantity;
  directObject : option string;
  indirectObject : option string;
  preposition : option string
}.

(** [x || null] for a string. *)
Definition orNull (x : string) : option string :=
  if String.eqb x EmptyString then None else Some x.

(** The [for] loop that looks for the first preposition: the tokens before
    it, and the preposition with the tokens after it when there is one. *)
Fixpoint splitAtPreposition (tokens : list string)
    : list string * option (string * list string) :=
  match tokens with
  | [] => ([], None)
  | tok :: rest =>
      if isPreposition tok then ([], Some (tok, rest))
      else let '(before, found) := splitAtPreposition rest in (tok :: before, found)
  end.

Section Parser.

(** [numericToken tok] is [Some n] when [!isNaN(tok)] holds and
    [parseInt(tok)] is the integer [n], and [None] when the token is not
    numeric. *)
Variable numericToken : string -> option Z.

Definition parseObjects (verb : Verb) (tokens : list string) : Parsed :=
  match tokens with
  | [] => mkParsed verb None None None None
  | firstToken :: rest =>
      let '(quantity, objectTokens) :=
        match numericToken firstToken with
        | Some n => (Some (QNum n), rest)
        | None =>
            match JsObject.get numberWords firstToken with
            | Some q => (Some q, rest)
            | None => (None, tokens)
            end
        end in
      match splitAtPreposition objectTokens with
      | (_, None) =>
          mkParsed verb quantity (orNull (Js.join " " objectTokens)) None None
      | (before, Some (prep, after)) =>
          mkParsed verb quantity (orNull (Js.join " " before))
            (orNull (Js.join " " after)) (orNull prep)
      end
  end.

Definition isDirectionVerb (v : Verb) : bool :=
  bool_decide (v ∈ [NORTH; SOUTH; EAST; WEST; UP; DOWN]).

(** The verb resolution at the head of [matchPattern]: the verb found and
    the remaining tokens, with the lookups in the order the source makes
    them (two words, then three, then one). *)
Definition resolveVerb (tokens : list string) : option Verb * list string :=
  let twoWord := match tokens with
                 | t0 :: t1 :: _ => normalizeVerb (t0 +:+ " " +:+ t1)
                 | _ => None
                 end in
  match twoWord with
  | Some v => (Some v, drop 2 tokens)
  | None =>
      let threeWord := match tokens with
                       | t0 :: t1 :: t2 :: _ =>
                           normalizeVerb (t0 +:+ " " +:+ t1 +:+ " " +:+ t2)
                       | _ => None
                       end in
      match threeWord with
      | Some v => (Some v, drop 3 tokens)
      | None => (normalizeVerb (hd EmptyString tokens), drop 1 tokens)
      end
  end.


Definition matchPattern (tokens : list string) : string + Parsed :=
  match tokens with
  | [] => inl "I don't understand that."
  | t0 :: _ =>
      match resolveVerb tokens with
      | (None, _) =>
          inl ("I don't know the word " +:+ Js.dquote +:+ t0 +:+ Js.dquote +:+ ".")
      | (Some verb, remainingTokens) =>
          if isDirectionVerb verb
          then inr (mkParsed GO None (Some (verbLower verb)) None None)
          else inr (parseObjects verb remainingTokens)
      end
  end.

End Parser.

(** ** Command execution (GameEngine, "COMMAND HANDLERS" and helpers) *)

(** What a handler produces: its response text, or an uncaught exception
    (a property read on [undefined] or a call of a missing method). *)
Inductive Outcome : Type :=
  | Response (text : string)
  | Throws.

(** What [getLocationDescription] computes between the lookup of the
    location and the quest-discovery check: the early return of a dark
    room, the lines of a lit room, or an exception. *)
Inductive LocationView : Type :=
  | Dark (text : string)
  | Lit (lines : list string)
  | ViewThrows.

(** [{ response, consumesTurn }] *)
Record CommandResult : Type := mkResult {
  response : string;
  consumesTurn : bool
}.

(** [matchesName(item, searchName)], on the item's [name] and, for a
    generic item, its [namePlural]. *)
Definition matchesName (name : string) (namePlural : option string)
    (searchName : string) : bool :=
  let itemName := Js.toLowerCase name in
  let search := Js.toLowerCase searchName in
  String.eqb itemName search
  || (if Js.truthy namePlural
      then let pluralName := Js.toLowerCase (default EmptyString namePlural) in
           String.eqb pluralName search
           || Js.includes pluralName search || Js.includes search pluralName
      else false)
  || Js.includes itemName search
  || forallb (fun sw => existsb (fun iw => Js.startsWith iw sw) (Js.splitWs itemName))
             (Js.splitWs search).

Definition matchesUnique (item : UniqueItem.t) (searchName : string) : bool :=
  matchesName (UniqueItem.name item) None searchName.

Definition matchesGeneric (item : GenericItem.t) (searchName : string) : bool :=
  matchesName (GenericItem.name item) (Some (GenericItem.namePlural item)) searchName.

(** [Math.min(qty, available)] after the default to ['all']. *)
Definition actualQuantity (quantity : option Quantity) (available : Z) : Z :=
  match quantity with
  | None | Some QAll => available
  | Some (QNum n) => Z.min n available
  end.

(** [takeQty > stack.quantity], false for ['all']. *)
Definition exceeds (quantity : option Quantity) (available : Z) : bool :=
  match quantity with
  | Some (QNum n) => available <? n
  | _ => false
  end.

Section Engine.

Variable game : Game.t.

(** The presentation part of [getLocationDescription]; its arguments are
    the state, the current location id and the location. *)
Variable viewLocation : GameState.t -> string -> Location.t -> LocationView.

(** The QUEST / QUESTS handler, which only reads the state. *)
Variable cmdQuest : GameState.t -> option string -> Outcome.

(** A current location that passes [if (currentLocation)]. *)
Definition currentPlace (s : GameState.t) : option string :=
  match GameState.getCurrentLocation s with
  | Some cur => if String.eqb cur EmptyString then None else Some cur
  | None => None
  end.

Definition checkQuestDiscovery (s : GameState.t) (locationId : string)
    : option string * GameState.t :=
  if String.eqb locationId "forest-clearing"
  then match List.find (fun q => String.eqb (Quest.id q) "explore-shed")
                       (Game.getQuests game) with
       | Some shedQuest =>
           if bool_decide (GameState.getQuestState s "explore-shed" = Some "inactive")
           then (Quest.startMessage shedQuest,
                 GameState.setQuestState s "explore-shed" "active")
           else (None, s)
       | None => (None, s)
       end
  else (None, s).

Definition getLocationDescription (s : GameState.t) : Outcome * GameState.t :=
  match currentPlace s with
  | None => (Response "ERROR: No active player or location.", s)
  | Some currentLocation =>
      match Game.getLocation game currentLocation with
      | None => (Response "ERROR: Location not found.", s)
      | Some location =>
          match viewLocation s currentLocation location with
          | ViewThrows => (Throws, s)
          | Dark text => (Response text, s)
          | Lit lines =>
              let '(questDiscoveryMessage, s1) := checkQuestDiscovery s currentLocation in
              if Js.truthy questDiscoveryMessage
              then (Response
                      (Js.join Js.nl
                         (lines ++ [Js.nl +:+ default EmptyString questDiscoveryMessage])%list),
                    s1)
              else (Response (Js.join Js.nl lines), s1)
          end
      end
  end.

(** *** Object resolution *)

Definition findUniqueItemAtLocation (s : GameState.t) (name : string)
    : option UniqueItem.t :=
  match currentPlace s with
  | None => None
  | Some currentLocation =>
      List.find (fun item => UniqueItem.visible item && matchesUnique item name)
        (omap (Game.getUniqueItem game)
              (GameState.getUniqueItemsAtLocation s currentLocation))
  end.

(** The unique items of the inventory that resolve in the game and match
    [name], in inventory order ([matchingKeys] of UNLOCK and LOCK). *)
Definition matchingInventoryItems (s : GameState.t) (name : string)
    : list UniqueItem.t :=
  List.filter (fun item => matchesUnique item name)
    (omap (Game.getUniqueItem game) (GameState.getUniqueItemsInInventory s None)).

Definition findUniqueItemInInventory (s : GameState.t) (name : string)
    : option UniqueItem.t :=
  head (matchingInventoryItems s name).

(** The first stack of a list whose item resolves in the game and matches
    [name], with that item. *)
Definition findMatchingStack (stacks : list Stack.t) (name : string)
    : option (GenericItem.t * Stack.t) :=
  head (omap (fun stack =>
                match Game.getGenericItem game (Stack.itemId stack) with
                | Some item => if matchesGeneric item name then Some (item, stack) else None
                | None => None
                end) stacks).

Definition findGenericItemAtLocation (s : GameState.t) (name : string)
    : option (GenericItem.t * Stack.t) :=
  match currentPlace s with
  | None => None
  | Some currentLocation =>
      findMatchingStack (GameState.getGenericItemStacksAt s currentLocation None) name
  end.

Definition findGenericItemInInventory (s : GameState.t) (name : string)
    : option (GenericItem.t * Stack.t) :=
  findMatchingStack (GameState.getGenericItemStacksAt s "inventory" None) name.

(** The direction test of [cmdGo]. *)
Definition exitMatchesGo (direction : string) (e : Exit.t) : bool :=
  String.eqb (Js.toLowerCase (Exit.direction e)) direction
  || Js.startsWith (Js.toLowerCase (Exit.direction e)) direction.

(** The direction test of [cmdUnlock] and [cmdLock]. *)
Definition exitMatchesLock (objectName : string) (e : Exit.t) : bool :=
  let d := Js.toLowerCase (Exit.direction e) in
  let o := Js.toLowerCase objectName in
  String.eqb d o || Js.startsWith d o || Js.includes o d.

(** The lines [`  ${item.getDescription(stack.quantity)}`] for the stacks
    whose item resolves. *)
Definition stackLines (stacks : list Stack.t) : list string :=
  omap (fun stack =>
          match Game.getGenericItem game (Stack.itemId stack) with
          | Some item =>
              Some ("  " +:+ GenericItem.getDescription item (Stack.quantity stack))
          | None => None
          end) stacks.

(** *** Handlers.  Each takes the state and returns its outcome with the
    state it leaves. *)

(** The tail of [cmdGo], reached when the exit is not locked: the move,
    the flag of the shed objective and the description of the new
    location. *)
Definition arrive (s : GameState.t) (exit : Exit.t) : Outcome * GameState.t :=
  let s1 := GameState.movePlayer s (Exit.leadsTo exit) None in
  let s2 := if String.eqb (Exit.leadsTo exit) "old-shed"
            then GameState.setFlag s1 "quest-explore-shed-objective-enter-shed"
                   (Js.VBool true)
            else s1 in
  getLocationDescription s2.

(** [cmdGo] calls itself once more after it has unlocked an exit; [fuel]
    bounds the depth of that recursion. *)
Fixpoint cmdGoFuel (fuel : nat) (s : GameState.t) (direction : option string)
    : option (Outcome * GameState.t) :=
  match fuel with
  | O => None
  | S fuel' =>
      if negb (Js.truthy direction) then Some (Response "Go where?", s)
      else
        let direction' := default EmptyString direction in
        match currentPlace s with
        | None => Some (Response "ERROR: No active player or location.", s)
        | Some currentLocation =>
            match Game.getLocation game currentLocation with
            | None => Some (Response "You can't go anywhere from here.", s)
            | Some location =>
                match List.find (exitMatchesGo direction') (Location.exits location) with
                | None =>
                    Some (Response ("You can't go " +:+ direction' +:+ " from here."), s)
                | Some exit =>
                    if GameState.isExitLocked s currentLocation (Exit.direction exit)
                    then
                      if Js.truthy (Exit.requiredItem exit)
                         && GameState.isUniqueItemInInventory s
                              (default EmptyString (Exit.requiredItem exit)) None
                      then
                        let s1 := GameState.unlockExit s currentLocation (Exit.direction exit) in
                        match Game.getUniqueItem game
                                (default EmptyString (Exit.requiredItem exit)) with
                        | None => Some (Throws, s1)
                        | Some item =>
                            match cmdGoFuel fuel' s1 direction with
                            | None => None
                            | Some (Throws, s2) => Some (Throws, s2)
                            | Some (Response rest, s2) =>
                                Some (Response
                                        ("You use the " +:+ UniqueItem.name item
                                         +:+ " to unlock the way " +:+ Exit.direction exit
                                         +:+ "." +:+ Js.nl +:+ Js.nl +:+ rest), s2)
                            end
                        end
                      else Some (Response (Js.orDefault (Exit.lockedMessage exit)
                                             "That way is locked."), s)
                    else Some (arrive s exit)
                end
            end
        end
  end.

(** Two levels are enough: see [cmdGoFuel_enough] and [cmdGo_fuel]. *)
Definition cmdGo (s : GameState.t) (direction : option string)
    : Outcome * GameState.t :=
  default (Throws, s) (cmdGoFuel 2 s direction).

Definition cmdExamine (s : GameState.t) (objectName : option string) : string :=
  if negb (Js.truthy objectName) then "Examine what?"
  else
    let name := default EmptyString objectName in
    match (match findUniqueItemAtLocation s name with
           | Some i => Some i
           | None => findUniqueItemInInventory s name
           end) with
    | Some uniqueItem =>
        if String.eqb (UniqueItem.examineText uniqueItem) EmptyString
        then UniqueItem.description uniqueItem
        else UniqueItem.examineText uniqueItem
    | None =>
        match (match findGenericItemAtLocation s name with
               | Some r => Some r
               | None => findGenericItemInInventory s name
               end) with
        | Some (item, _) =>
            if String.eqb (GenericItem.examineText item) EmptyString
            then GenericItem.description item
            else GenericItem.examineText item
        | None => "I don't see that here."
        end
    end.

Definition cmdLook (s : GameState.t) (target : option string)
    : Outcome * GameState.t :=
  if negb (Js.truthy target) then getLocationDescription s
  else (Response (cmdExamine s target), s).

Definition takeFromContainer (s : GameState.t) (objectName containerName : string)
    (quantity : option Quantity) : string * GameState.t :=
  match findUniqueItemAtLocation s containerName with
  | None => ("I don't see " +:+ containerName +:+ " here.", s)
  | Some container =>
      if negb (UniqueItem.isContainer container)
      then ("The " +:+ UniqueItem.name container +:+ " is not a container.", s)
      else if negb (GameState.isContainerOpen s (UniqueItem.id container))
      then (Js.orDefault (UniqueItem.closedMessage container)
              ("The " +:+ UniqueItem.name container +:+ " is closed."), s)
      else
        match findMatchingStack
                (GameState.getGenericItemStacksAt s (UniqueItem.id container) None)
                objectName with
        | None =>
            ("There's no " +:+ objectName +:+ " in the "
             +:+ UniqueItem.name container +:+ ".", s)
        | Some (item, stack) =>
            if exceeds quantity (Stack.quantity stack)
            then ("There are only " +:+ Js.ofZ (Stack.quantity stack) +:+ " "
                  +:+ GenericItem.getDisplayName item (Stack.quantity stack)
                  +:+ " in the " +:+ UniqueItem.name container +:+ ".", s)
            else
              let actualQty := actualQuantity quantity (Stack.quantity stack) in
              match GameState.transferGenericItems s (UniqueItem.id container)
                      "inventory" (GenericItem.id item) actualQty None with
              | (true, s1) =>
                  let s2 :=
                    if String.eqb (UniqueItem.id container) "treasure-chest"
                       && (String.eqb (GenericItem.id item) "gold-coin"
                           || String.eqb (GenericItem.id item) "gem")
                    then GameState.setFlag s1
                           "quest-find-treasure-objective-collect-treasure" (Js.VBool true)
                    else s1 in
                  ("You take " +:+ GenericItem.getDescription item actualQty
                   +:+ " from the " +:+ UniqueItem.name container +:+ ".", s2)
              | (false, s1) => ("You can't take that.", s1)
              end
        end
  end.

Definition cmdTake (s : GameState.t) (objectName fromObject prep : option string)
    (quantity : option Quantity) : string * GameState.t :=
  if negb (Js.truthy objectName) then ("Take what?", s)
  else
    let name := default EmptyString objectName in
    if Js.truthy fromObject && Js.truthy prep
    then takeFromContainer s name (default EmptyString fromObject) quantity
    else
      match findUniqueItemAtLocation s name with
      | Some uniqueItem =>
          if negb (UniqueItem.canTake uniqueItem)
          then (UniqueItem.getCantTakeMessage uniqueItem, s)
          else (UniqueItem.getTakeMessage uniqueItem,
                GameState.moveUniqueItem s (UniqueItem.id uniqueItem)
                  (Some "inventory") None)
      | None =>
          match findGenericItemAtLocation s name with
          | Some (item, stack) =>
              let actualQty := actualQuantity quantity (Stack.quantity stack) in
              match GameState.transferGenericItems s
                      (Js.keyOf (GameState.getCurrentLocation s)) "inventory"
                      (GenericItem.id item) actualQty None with
              | (true, s1) =>
                  ("You take " +:+ GenericItem.getDescription item actualQty +:+ ".", s1)
              | (false, s1) => ("I don't see that here.", s1)
              end
          | None => ("I don't see that here.", s)
          end
      end.

Definition cmdDrop (s : GameState.t) (objectName : option string)
    (quantity : option Quantity) : string * GameState.t :=
  if negb (Js.truthy objectName) then ("Drop what?", s)
  else
    let name := default EmptyString objectName in
    let currentLocation := GameState.getCurrentLocation s in
    match findUniqueItemInInventory s name with
    | Some uniqueItem =>
        (UniqueItem.getDropMessage uniqueItem,
         GameState.moveUniqueItem s (UniqueItem.id uniqueItem) currentLocation None)
    | None =>
        match findGenericItemInInventory s name with
        | Some (item, stack) =>
            if exceeds quantity (Stack.quantity stack)
            then ("You only have " +:+ Js.ofZ (Stack.quantity stack) +:+ " "
                  +:+ GenericItem.getDisplayName item (Stack.quantity stack) +:+ ".", s)
            else
              let actualQty := actualQuantity quantity (Stack.quantity stack) in
              match GameState.transferGenericItems s "inventory"
                      (Js.keyOf currentLocation) (GenericItem.id item) actualQty None with
              | (true, s1) =>
                  ("You drop " +:+ GenericItem.getDescription item actualQty +:+ ".", s1)
              | (false, s1) => ("You don't have that.", s1)
              end
        | None => ("You don't have that.", s)
        end
    end.

Definition cmdInventory (s : GameState.t) : string :=
  let uniqueItems := GameState.getUniqueItemsInInventory s None in
  let genericStacks := GameState.getGenericItemStacksAt s "inventory" None in
  match uniqueItems, genericStacks with
  | [], [] => "You aren't carrying anything."
  | _, _ =>
      Js.join Js.nl
        (["You are carrying:"]
         ++ List.map (fun item => "  " +:+ UniqueItem.name item)
              (omap (Game.getUniqueItem game) uniqueItems)
         ++ stackLines genericStacks)%list
  end.

Definition cmdOpen (s : GameState.t) (objectName : option string)
    : string * GameState.t :=
  if negb (Js.truthy objectName) then ("Open what?", s)
  else
    match findUniqueItemAtLocation s (default EmptyString objectName) with
    | None => ("I don't see that here.", s)
    | Some uniqueItem =>
        let name := UniqueItem.name uniqueItem in
        if negb (UniqueItem.isContainer uniqueItem)
        then ("You can't open the " +:+ name +:+ ".", s)
        else if GameState.isContainerLocked s (UniqueItem.id uniqueItem)
        then (Js.orDefault (UniqueItem.lockedMessage uniqueItem)
                ("The " +:+ name +:+ " is locked."), s)
        else if GameState.isContainerOpen s (UniqueItem.id uniqueItem)
        then
          match GameState.getGenericItemStacksAt s (UniqueItem.id uniqueItem) None with
          | [] => ("The " +:+ name +:+ " is already open and empty.", s)
          | stacks =>
              (Js.join Js.nl
                 (("The " +:+ name +:+ " is already open." +:+ Js.nl +:+ "Inside you see:")
                  :: stackLines stacks), s)
          end
        else
          let s1 := GameState.openContainer s (UniqueItem.id uniqueItem) in
          match GameState.getGenericItemStacksAt s1 (UniqueItem.id uniqueItem) None with
          | [] => ("You open the " +:+ name +:+ ". It's empty.", s1)
          | stacks =>
              (Js.join Js.nl
                 (UniqueItem.getOpenMessage uniqueItem
                  :: (Js.nl +:+ "Inside you see:") :: stackLines stacks), s1)
          end
    end.

Definition cmdEndTurn : string := "You end your turn.".

(** [matchingKeys.find(k => k.id === required)] *)
Definition findKey (required : string) (matchingKeys : list UniqueItem.t)
    : option UniqueItem.t :=
  List.find (fun k => String.eqb (UniqueItem.id k) required) matchingKeys.

(** The container branch of [cmdUnlock], entered when the object resolves
    to a unique item that is a container. *)
Definition cmdUnlockContainer (s : GameState.t) (uniqueItem : UniqueItem.t)
    (keyName prep : option string) : string * GameState.t :=
  let name := UniqueItem.name uniqueItem in
  if negb (GameState.isContainerLocked s (UniqueItem.id uniqueItem))
  then ("The " +:+ name +:+ " is already unlocked.", s)
  else if Js.truthy keyName && Js.truthy prep
  then
    match matchingInventoryItems s (default EmptyString keyName) with
    | [] => ("You don't have " +:+ default EmptyString keyName +:+ ".", s)
    | (firstKey :: _) as matchingKeys =>
        if Js.truthy (UniqueItem.requiredKey uniqueItem)
        then
          match findKey (default EmptyString (UniqueItem.requiredKey uniqueItem))
                        matchingKeys with
          | Some correctKey =>
              ("You unlock the " +:+ name +:+ " with the "
               +:+ UniqueItem.name correctKey +:+ ".",
               GameState.unlockContainer s (UniqueItem.id uniqueItem))
          | None => ("None of your keys fit the lock.", s)
          end
        else ("You unlock the " +:+ name +:+ " with the "
              +:+ UniqueItem.name firstKey +:+ ".",
              GameState.unlockContainer s (UniqueItem.id uniqueItem))
    end
  else if Js.truthy (UniqueItem.requiredKey uniqueItem)
  then
    match Game.getUniqueItem game
            (default EmptyString (UniqueItem.requiredKey uniqueItem)) with
    | Some key =>
        if GameState.isUniqueItemInInventory s (UniqueItem.id key) None
        then ("You unlock the " +:+ name +:+ " with the " +:+ UniqueItem.name key +:+ ".",
              GameState.unlockContainer s (UniqueItem.id uniqueItem))
        else ("You need a key to unlock the " +:+ name +:+ ".", s)
    | None => ("You need a key to unlock the " +:+ name +:+ ".", s)
    end
  else ("You unlock the " +:+ name +:+ ".",
        GameState.unlockContainer s (UniqueItem.id uniqueItem)).

(** The exit branch of [cmdUnlock]. *)
Definition cmdUnlockExit (s : GameState.t) (objectName : string)
    (keyName prep : option string) : string * GameState.t :=
  match GameState.getCurrentLocation s with
  | None => ("I don't see that here.", s)
  | Some currentLocation =>
      match Game.getLocation game currentLocation with
      | None => ("I don't see that here.", s)
      | Some location =>
          match List.find (exitMatchesLock objectName) (Location.exits location) with
          | None => ("I don't see that here.", s)
          | Some exit =>
              let dir := Exit.direction exit in
              if negb (GameState.isExitLocked s currentLocation dir)
              then ("The way " +:+ dir +:+ " is already unlocked.", s)
              else if Js.truthy keyName && Js.truthy prep
              then
                match matchingInventoryItems s (default EmptyString keyName) with
                | [] => ("You don't have " +:+ default EmptyString keyName +:+ ".", s)
                | (firstKey :: _) as matchingKeys =>
                    if Js.truthy (Exit.requiredItem exit)
                    then
                      match findKey (default EmptyString (Exit.requiredItem exit))
                                    matchingKeys with
                      | Some correctKey =>
                          ("You unlock the way " +:+ dir +:+ " with the "
                           +:+ UniqueItem.name correctKey +:+ ".",
                           GameState.unlockExit s currentLocation dir)
                      | None => ("None of your keys fit the lock.", s)
                      end
                    else ("You unlock the way " +:+ dir +:+ " with the "
                          +:+ UniqueItem.name firstKey +:+ ".",
                          GameState.unlockExit s currentLocation dir)
                end
              else if Js.truthy (Exit.requiredItem exit)
              then
                match Game.getUniqueItem game
                        (default EmptyString (Exit.requiredItem exit)) with
                | Some item =>
                    if GameState.isUniqueItemInInventory s (UniqueItem.id item) None
                    then ("You unlock the way " +:+ dir +:+ " with the "
                          +:+ UniqueItem.name item +:+ ".",
                          GameState.unlockExit s currentLocation dir)
                    else ("You need something to unlock the way " +:+ dir +:+ ".", s)
                | None => ("You need something to unlock the way " +:+ dir +:+ ".", s)
                end
              else ("You unlock the way " +:+ dir +:+ ".",
                    GameState.unlockExit s currentLocation dir)
          end
      end
  end.

Definition cmdUnlock (s : GameState.t) (objectName keyName prep : option string)
    : string * GameState.t :=
  if negb (Js.truthy objectName) then ("Unlock what?", s)
  else
    let name := default EmptyString objectName in
    match findUniqueItemAtLocation s name with
    | Some uniqueItem =>
        if UniqueItem.isContainer uniqueItem
        then cmdUnlockContainer s uniqueItem keyName prep
        else cmdUnlockExit s name keyName prep
    | None => cmdUnlockExit s name keyName prep
    end.

(** The container branch of [cmdLock]. *)
Definition cmdLockContainer (s : GameState.t) (uniqueItem : UniqueItem.t)
    (keyName prep : option string) : string * GameState.t :=
  let name := UniqueItem.name uniqueItem in
  if GameState.isContainerLocked s (UniqueItem.id uniqueItem)
  then ("The " +:+ name +:+ " is already locked.", s)
  else if GameState.isContainerOpen s (UniqueItem.id uniqueItem)
  then ("You need to close the " +:+ name +:+ " before you can lock it.", s)
  else if Js.truthy keyName && Js.truthy prep
  then
    match matchingInventoryItems s (default EmptyString keyName) with
    | [] => ("You don't have " +:+ default EmptyString keyName +:+ ".", s)
    | (firstKey :: _) as matchingKeys =>
        if Js.truthy (UniqueItem.requiredKey uniqueItem)
        then
          match findKey (default EmptyString (UniqueItem.requiredKey uniqueItem))
                        matchingKeys with
          | Some correctKey =>
              ("You lock the " +:+ name +:+ " with the "
               +:+ UniqueItem.name correctKey +:+ ".",
               GameState.lockContainer s (UniqueItem.id uniqueItem))
          | None => ("None of your keys fit the lock.", s)
          end
        else ("You lock the " +:+ name +:+ " with the "
              +:+ UniqueItem.name firstKey +:+ ".",
              GameState.lockContainer s (UniqueItem.id uniqueItem))
    end
  else if Js.truthy (UniqueItem.requiredKey uniqueItem)
  then
    match Game.getUniqueItem game
            (default EmptyString (UniqueItem.requiredKey uniqueItem)) with
    | Some key =>
        if GameState.isUniqueItemInInventory s (UniqueItem.id key) None
        then ("You lock the " +:+ name +:+ " with the " +:+ UniqueItem.name key +:+ ".",
              GameState.lockContainer s (UniqueItem.id uniqueItem))
        else ("You need a key to lock the " +:+ name +:+ ".", s)
    | None => ("You need a key to lock the " +:+ name +:+ ".", s)
    end
  else ("You lock the " +:+ name +:+ ".",
        GameState.lockContainer s (UniqueItem.id uniqueItem)).

(** The exit branch of [cmdLock]. *)
Definition cmdLockExit (s : GameState.t) (objectName : string)
    (keyName prep : option string) : string * GameState.t :=
  match GameState.getCurrentLocation s with
  | None => ("I don't see that here.", s)
  | Some currentLocation =>
      match Game.getLocation game currentLocation with
      | None => ("I don't see that here.", s)
      | Some location =>
          match List.find (exitMatchesLock objectName) (Location.exits location) with
          | None => ("I don't see that here.", s)
          | Some exit =>
              let dir := Exit.direction exit in
              if GameState.isExitLocked s currentLocation dir
              then ("The way " +:+ dir +:+ " is already locked.", s)
              else if Js.truthy keyName && Js.truthy prep
              then
                match matchingInventoryItems s (default EmptyString keyName) with
                | [] => ("You don't have " +:+ default EmptyString keyName +:+ ".", s)
                | (firstKey :: _) as matchingKeys =>
                    if Js.truthy (Exit.requiredItem exit)
                    then
                      match findKey (default EmptyString (Exit.requiredItem exit))
                                    matchingKeys with
                      | Some correctKey =>
                          ("You lock the way " +:+ dir +:+ " with the "
                           +:+ UniqueItem.name correctKey +:+ ".",
                           GameState.lockExit s currentLocation dir)
                      | None => ("None of your keys fit the lock.", s)
                      end
                    else ("You lock the way " +:+ dir +:+ " with the "
                          +:+ UniqueItem.name firstKey +:+ ".",
                          GameState.lockExit s currentLocation dir)
                end
              else if Js.truthy (Exit.requiredItem exit)
              then
                match Game.getUniqueItem game
                        (default EmptyString (Exit.requiredItem exit)) with
                | Some item =>
                    if GameState.isUniqueItemInInventory s (UniqueItem.id item) None
                    then ("You lock the way " +:+ dir +:+ " with the "
                          +:+ UniqueItem.name item +:+ ".",
                          GameState.lockExit s currentLocation dir)
                    else ("You need something to lock the way " +:+ dir +:+ ".", s)
                | None => ("You need something to lock the way " +:+ dir +:+ ".", s)
                end
              else ("You lock the way " +:+ dir +:+ ".",
                    GameState.lockExit s currentLocation dir)
          end
      end
  end.

Definition cmdLock (s : GameState.t) (objectName keyName prep : option string)
    : string * GameState.t :=
  if negb (Js.truthy objectName) then ("Lock what?", s)
  else
    let name := default EmptyString objectName in
    match findUniqueItemAtLocation s name with
    | Some uniqueItem =>
        if UniqueItem.isContainer uniqueItem
        then cmdLockContainer s uniqueItem keyName prep
        else cmdLockExit s name keyName prep
    | None => cmdLockExit s name keyName prep
    end.

Definition cmdClose (s : GameState.t) (objectName : option string)
    : string * GameState.t :=
  if negb (Js.truthy objectName) then ("Close what?", s)
  else
    match findUniqueItemAtLocation s (default EmptyString objectName) with
    | None => ("I don't see that here.", s)
    | Some uniqueItem =>
        if negb (UniqueItem.isContainer uniqueItem)
        then ("You can't close the " +:+ UniqueItem.name uniqueItem +:+ ".", s)
        else if negb (GameState.isContainerOpen s (UniqueItem.id uniqueItem))
        then ("The " +:+ UniqueItem.name uniqueItem +:+ " is already closed.", s)
        else ("You close the " +:+ UniqueItem.name uniqueItem +:+ ".",
              GameState.closeContainer s (UniqueItem.id uniqueItem))
    end.

Definition cmdUse (s : GameState.t) (objectName targetName prep : option string)
    : string :=
  if negb (Js.truthy objectName) then "Use what?"
  else
    match findUniqueItemInInventory s (default EmptyString objectName) with
    | None => "You don't have that."
    | Some item =>
        if negb (UniqueItem.usable item)
        then "You can't use the " +:+ UniqueItem.name item +:+ "."
        else if Js.truthy targetName
                && negb (UniqueItem.canUseWith item (default EmptyString targetName))
        then "You can't use the " +:+ UniqueItem.name item +:+ " with that."
        else UniqueItem.getUseMessage item
    end.

Definition cmdPut (objectName containerName prep : option string) : string :=
  if negb (Js.truthy objectName) || negb (Js.truthy containerName)
  then "Put what where?"
  else "Putting items in containers is not yet fully implemented.".

(** *** Dispatch *)

Definition nonTurnCommands : list Verb := [LOOK; INVENTORY; EXAMINE; QUEST; QUESTS].

(** The result of a handler that cannot throw. *)
Definition returns (r : string * GameState.t) : Outcome * GameState.t :=
  (Response (fst r), snd r).

(** The [switch] of [executeCommand]. *)
Definition dispatch (s : GameState.t) (parsed : Parsed) : Outcome * GameState.t :=
  match verb parsed with
  | LOOK => cmdLook s (directObject parsed)
  | GO => cmdGo s (directObject parsed)
  | TAKE => returns (cmdTake s (directObject parsed) (indirectObject parsed)
                       (preposition parsed) (quantity parsed))
  | DROP => returns (cmdDrop s (directObject parsed) (quantity parsed))
  | INVENTORY => (Response (cmdInventory s), s)
  | EXAMINE => (Response (cmdExamine s (directObject parsed)), s)
  | OPEN => returns (cmdOpen s (directObject parsed))
  | END_ => (Response cmdEndTurn, s)
  | UNLOCK => returns (cmdUnlock s (directObject parsed) (indirectObject parsed)
                         (preposition parsed))
  | LOCK => returns (cmdLock s (directObject parsed) (indirectObject parsed)
                       (preposition parsed))
  | CLOSE => returns (cmdClose s (directObject parsed))
  | USE => (Response (cmdUse s (directObject parsed) (indirectObject parsed)
                        (preposition parsed)), s)
  | PUT => (Response (cmdPut (directObject parsed) (indirectObject parsed)
                        (preposition parsed)), s)
  | QUEST | QUESTS => (cmdQuest s (directObject parsed), s)
  | NORTH | SOUTH | EAST | WEST | UP | DOWN =>
      (Response ("I don't know how to " +:+ verbLower (verb parsed) +:+ "."), s)
  end.

(** [executeCommand]: [None] when the handler throws, in which case no
    result object is returned. *)
Definition executeCommand (s : GameState.t) (parsed : Parsed)
    : option CommandResult * GameState.t :=
  let consumesTurn := negb (bool_decide (verb parsed ∈ nonTurnCommands)) in
  match dispatch s parsed with
  | (Response text, s1) => (Some (mkResult text consumesTurn), s1)
  | (Throws, s1) => (None, s1)
  end.

(** The text after the word [w] at the head of [command], compared without
    regard to case. *)
Definition afterWord (w command : string) : option string :=
  if Js.startsWith (Js.toLowerCase command) w
  then Some (String.substring (String.length w)
               (String.length command - String.length w) command)
  else None.

Fixpoint hasLineTerminator (s : string) : bool :=
  match s with
  | EmptyString => false
  | String c r => Js.isLineTerminator c || hasLineTerminator r
  end.

(** [\s+(.+)$] on the text that follows the word. *)
Definition spacedRest (r : string) : option string :=
  match r with
  | String c _ =>
      if Js.isSpace c
      then let rest := Js.trimStart r in
           if String.eqb rest EmptyString || hasLineTerminator rest
           then None else Some rest
      else None
  | EmptyString => None
  end.

(** Group 1 of [command.match(/^(?:quest|quests)\s+(.+)$/i)]. *)
Definition questMatch (command : string) : option string :=
  match afterWord "quest" command ≫= spacedRest with
  | Some m => Some m
  | None => afterWord "quests" command ≫= spacedRest
  end.

Variable numericToken : string -> option Z.

(** [parseCommand]: the result object ([None] when a handler throws) and
    the state it leaves. *)
Definition parseCommand (s : GameState.t) (input : string)
    : option CommandResult * GameState.t :=
  let command := Js.trim input in
  if String.eqb command EmptyString
  then (Some (mkResult "Please enter a command." false), s)
  else
    match tokenize command with
    | [] => (Some (mkResult "I don't understand that." false), s)
    | tokens =>
        match matchPattern numericToken tokens with
        | inl error => (Some (mkResult error false), s)
        | inr result =>
            let result' :=
              if bool_decide (verb result = QUEST) || bool_decide (verb result = QUESTS)
              then match questMatch command with
                   | Some m =>
                       mkParsed (verb result) (quantity result) (Some (Js.trim m))
                         (indirectObject result) (preposition result)
                   | None => result
                   end
              else result in
            executeCommand s result'
        end
    end.

(** *** Quest check *)

(** The body of the [forEach] over [quest.itemRewards]. *)
Definition grantReward (s : GameState.t) (itemId : string) : GameState.t :=
  GameState.withUniqueItemLocations s
    (JsObject.set (GameState.uniqueItemLocations s) itemId
       (Some (GameState.inventoryKey (GameState.activePlayerId s)))).

(** The body of the [forEach] of [checkQuestProgress]: the messages
    collected so far and the state. *)
Definition checkQuest (acc : list string * GameState.t) (quest : Quest.t)
    : list string * GameState.t :=
  let '(questMessages, s) := acc in
  if negb (bool_decide (GameState.getQuestState s (Quest.id quest) = Some "active"))
  then acc
  else if Quest.isComplete quest s
  then
    let s1 := GameState.setQuestState s (Quest.id quest) "completed" in
    let s2 := if 0 <? Quest.scoreReward quest
              then GameState.addScore s1 (Quest.scoreReward quest) None else s1 in
    let s3 := fold_left grantReward (Quest.itemRewards quest) s2 in
    let messages1 := (questMessages ++ [Quest.getCompletionMessage quest])%list in
    let messages2 :=
      if Quest.isMainQuest quest
      then (messages1 ++ [Js.nl +:+ "=== GAME COMPLETE ===" +:+ Js.nl
                          +:+ "You have completed the main quest!"])%list
      else messages1 in
    (messages2, s3)
  else acc.

Definition checkQuestProgress (s : GameState.t) : option string * GameState.t :=
  let '(questMessages, s1) := fold_left checkQuest (Game.getQuests game) ([], s) in
  match questMessages with
  | [] => (None, s1)
  | _ => (Some (Js.join (Js.nl +:+ Js.nl) questMessages), s1)
  end.

(** *** The turn loop of the application (TextAdventureApp).  Only what
    the loop does to the engine's state is kept; [selectedPlayers] is the
    list of the ids of the selected players. *)

(** [selectedPlayers.findIndex(p => p.id === id)] *)
Fixpoint findIndex (id : string) (ids : list string) : option nat :=
  match ids with
  | [] => None
  | x :: r => if String.eqb x id then Some 0%nat else S <$> findIndex id r
  end.

Definition advanceToNextPlayer (selectedPlayers : list string) (s : GameState.t)
    : GameState.t :=
  match GameState.activePlayerId s ≫= (fun id => findIndex id selectedPlayers) with
  | None => s
  | Some currentIndex =>
      let nextIndex := ((currentIndex + 1) mod List.length selectedPlayers)%nat in
      match selectedPlayers !! nextIndex with
      | None => s
      | Some nextPlayer =>
          snd (getLocationDescription (GameState.setActivePlayer s nextPlayer))
      end
  end.

(** [handleCommand]: the state it leaves, and whether it has disabled the
    input because the main quest is completed. *)
Definition handleCommand (selectedPlayers : list string) (s : GameState.t)
    (value : string) : GameState.t * bool :=
  let input := Js.trim value in
  if String.eqb input EmptyString then (s, false)
  else
    match parseCommand s input with
    | (None, s1) => (s1, false)
    | (Some result, s1) =>
        let '(questUpdate, s2) := checkQuestProgress s1 in
        if Js.truthy questUpdate
           && match Game.getMainQuest game with
              | Some mainQuest => GameState.isQuestCompleted s2 (Quest.id mainQuest)
              | None => false
              end
        then (s2, true)
        else if (1 <? List.length selectedPlayers)%nat && consumesTurn result
        then (advanceToNextPlayer selectedPlayers s2, false)
        else (s2, false)
    end.

End Engine.

(** The state [startGameWithPlayers] builds for a non-empty selection: a
    new store, joined by the selected players in order at the start
    location of the game. *)
Definition startGameWithPlayers (game : Game.t) (startLocation : string)
    (selectedPlayers : list string) : GameState.t :=
  fold_left (fun s id => GameState.addPlayer s id startLocation) selectedPlayers
    (newState game).

(** A reading of numeric tokens that covers signed decimal integers, the
    instance used in the examples. *)
Definition digitValue (c : ascii) : option Z :=
  let n := nat_of_ascii c in
  if (Nat.leb 48 n && Nat.leb n 57)%bool then Some (Z.of_nat (n - 48)) else None.

Fixpoint digitsValue (acc : Z) (s : string) : option Z :=
  match s with
  | EmptyString => Some acc
  | String c r =>
      match digitValue c with
      | Some d => digitsValue (10 * acc + d) r
      | None => None
      end
  end.

Definition decimalToken (tok : string) : option Z :=
  match tok with
  | EmptyString => None
  | String "-"%char (String _ _ as r) => Z.opp <$> digitsValue 0 r
  | String "+"%char (String _ _ as r) => digitsValue 0 r
  | _ => digitsValue 0 tok
  end.

(** ** Predicates used in the statements *)



(** Every stack of the store holds a positive quantity. *)
Definition stocked (s : GameState.t) : Prop :=
  forall cid l st,
    GameState.genericItemStacks s !! cid = Some l -> In st l -> 0 < Stack.quantity st.

(** No stack of the kind [itemId] at the place [cid] is empty. *)
Definition noEmptyStack (s : GameState.t) (cid itemId : string) : Prop :=
  forall l st,
    GameState.genericItemStacks s !! cid = Some l -> In st l ->
    Stack.itemId st = itemId -> Stack.quantity st <> 0.

(** The exits a game declares, each with its key in [exitStates], in the
    order the constructor visits them. *)
Definition declaredExits (game : Game.t) : list (string * Exit.t) :=
  flat_map (fun location =>
              List.map (fun exit =>
                          (GameState.exitKey (Location.id location) (Exit.direction exit),
                           exit))
                       (Location.exits location))
           (Game.locations game).

(** The table built by the exit loops of the constructor, as one fold over
    the declared exits. *)
Definition writeExit (m : gmap string ExitState.t) (ke : string * Exit.t)
    : gmap string ExitState.t :=
  <[fst ke := ExitState.mk (initialExitLock (snd ke))]> m.

(** Every required objective of the quest has its flag set to a truthy
    value in the global flags. *)
Definition requiredObjectivesDone (s : GameState.t) (q : Quest.t) : Prop :=
  forall o, In o (Quest.objectives q) -> Objective.required o = true ->
            Quest.objectiveDone s q o = true.

(** The store with an explicit unlocked, open entry for the container
    [containerId] when it has none. *)
Definition initialised (containerId : string) (s : GameState.t) : GameState.t :=
  match GameState.containerStates s !! containerId with
  | Some _ => s
  | None =>
      GameState.withContainerStates s
        (<[containerId := ContainerState.mk false true]> (GameState.containerStates s))
  end.

(** No player's list of visited locations holds a location twice. *)
Definition visitsOnce (s : GameState.t) : Prop :=
  forall pid p, GameState.players s !! pid = Some p ->
                NoDup (PlayerData.visitedLocations p).

(** The player record [movePlayer] writes for a move to [locationId]. *)
Definition moved (p : PlayerData.t) (locationId : string) : PlayerData.t :=
  PlayerData.mk locationId (PlayerData.score p) (PlayerData.turnCount p + 1)
    (if Js.arrayIncludes (PlayerData.visitedLocations p) locationId
     then PlayerData.visitedLocations p
     else (PlayerData.visitedLocations p ++ [locationId])%list)
    (PlayerData.flags p).

(** ** A small world for the concrete cases: a hall with a locked chest of
    three gold coins and two keys, and a yard to the north behind an exit
    that needs the iron key. *)
Module Sample.

Definition item (id name : string) (isContainer : bool) (contents : list Stack.t)
    (isLocked : bool) (requiredKey : option string) : UniqueItem.t :=
  UniqueItem.mk id name EmptyString (Some "hall") true true false isContainer
    contents isLocked true requiredKey None None EmptyString None None None None
    None None.

Definition chest : UniqueItem.t :=
  item "chest" "wooden chest" true [Stack.mk "gold-coin" 3] true (Some "iron-key").
Definition ironKey : UniqueItem.t := item "iron-key" "iron key" false [] false None.
Definition rustyKey : UniqueItem.t := item "rusty-key" "rusty key" false [] false None.

Definition goldCoin : GenericItem.t :=
  GenericItem.mk "gold-coin" "gold coin" "gold coins" EmptyString EmptyString.

Definition northExit : Exit.t := Exit.mk "north" "yard" false None (Some "iron-key").
Definition hall : Location.t := Location.mk "hall" "Hall" "A bare hall." [northExit].
Definition yard : Location.t :=
  Location.mk "yard" "Yard" "A walled yard." [Exit.mk "south" "hall" false None None].

(** A main quest with two required objectives. *)
Definition treasureQuest : Quest.t :=
  Quest.mk "find-treasure" "Find the treasure" "Open the chest." true "active"
    [Objective.mk "open-chest" "Open the chest" true;
     Objective.mk "collect-treasure" "Collect the treasure" true]
    true 10 [] None None None.

(** A quest without objectives and without a custom check. *)
Definition idleQuest : Quest.t :=
  Quest.mk "idle" "Idle" "Nothing to do." false "active" [] true 0 [] None None None.

Definition game : Game.t :=
  Game.mk "sample" [hall; yard] [goldCoin] [chest; ironKey; rustyKey] []
    [treasureQuest; idleQuest].

Definition view (s : GameState.t) (currentLocation : string) (l : Location.t)
    : LocationView :=
  Lit [Location.name l].

Definition cmdQuest (s : GameState.t) (questName : option string) : Outcome :=
  Response "=== QUESTS ===".

(** A new game joined by the player [p1]. *)
Definition start : GameState.t := GameState.addPlayer (newState game) "p1" "hall".

Definition run (s : GameState.t) (input : string)
    : option CommandResult * GameState.t :=
  parseCommand game view cmdQuest decimalToken s input.

(** The state after a list of command lines. *)
Definition after (inputs : list string) : GameState.t :=
  fold_left (fun s input => snd (run s input)) inputs start.

(** Three gold coins on the floor of the hall. *)
Definition coinsOnFloor : GameState.t :=
  GameState.addGenericItems start "hall" "gold-coin" 3 None.

(** A player whose id is the empty string joins a new game. *)
Definition anonymous : GameState.t := GameState.addPlayer (newState game) EmptyString "hall".

(** Two locations whose exits share the key "cave-north-east": the exit
    north-east of the cave needs the lantern, the exit east of the cave's
    north part needs nothing. *)
Definition lantern : UniqueItem.t :=
  UniqueItem.mk "lantern" "lantern" EmptyString (Some "cave-north") true true false
    false [] false true None None None EmptyString None None None None None None.
Definition gatedExit : Exit.t := Exit.mk "north-east" "cave-north" false None (Some "lantern").
Definition cave : Location.t := Location.mk "cave" "Cave" "A cave." [gatedExit].
Definition caveNorth : Location.t :=
  Location.mk "cave-north" "Cave, north part" "More cave."
    [Exit.mk "east" "cave" false None None].
Definition caves : Game.t := Game.mk "caves" [cave; caveNorth] [] [lantern] [] [].

(** A new game of the caves joined by a player who stands in the cave. *)
Definition inCave : GameState.t := GameState.addPlayer (newState caves) "p1" "cave".

(** A quest with a custom completion check that never holds, and two
    quests that share an id. *)
Definition guardedQuest : Quest.t :=
  Quest.mk "guarded" "Guarded" "Never done." true "active"
    [Objective.mk "only" "The only objective" true] true 0 []
    (Some (fun _ => false)) None None.
Definition twinA : Quest.t :=
  Quest.mk "twin" "Twin A" "First of two." false "active"
    [Objective.mk "a" "Objective a" true] true 0 [] None None None.
Definition twinB : Quest.t :=
  Quest.mk "twin" "Twin B" "Second of two." false "active"
    [Objective.mk "b" "Objective b" true] true 0 [] None None None.
Definition questGame : Game.t :=
  Game.mk "quests" [hall] [] [] [] [guardedQuest; twinA; twinB].

(** A new game of [questGame] in which the flags of the objectives
    [guarded/only] and [twin/a] are set and that of [twin/b] is not. *)
Definition questsUnderWay : GameState.t :=
  GameState.setFlag
    (GameState.setFlag (GameState.addPlayer (newState questGame) "p1" "hall")
       "quest-guarded-objective-only" (Js.VBool true))
    "quest-twin-objective-a" (Js.VBool true).

(** The start of the game with the flag of the first objective of the
    treasure quest set, and with both flags set. *)
Definition oneObjectiveDone : GameState.t :=
  GameState.setFlag start "quest-find-treasure-objective-open-chest" (Js.VBool true).
Definition bothObjectivesDone : GameState.t :=
  GameState.setFlag oneObjectiveDone
    "quest-find-treasure-objective-collect-treasure" (Js.VBool true).

(** The start of the game restored from a save that lacks the
    [containerStates] table. *)
Definition bare : GameState.t := GameState.withContainerStates start ∅.

End Sample.

(** * Properties *)

(** ** Stack lists *)
Section StackLists.

Implicit Types (l : list Stack.t) (st : Stack.t) (itemId : string).

Lemma isItem_true itemId st :
  GameState.isItem itemId st = true <-> Stack.itemId st = itemId.
Proof. unfold GameState.isItem. apply String.eqb_eq. Qed.

Lemma isItem_other itemId other st :
  itemId <> other -> GameState.isItem itemId st = true ->
  GameState.isItem other st = false.
Proof.
  intros Hne H. apply isItem_true in H. unfold GameState.isItem.
  apply String.eqb_neq. congruence.
Qed.

Lemma find_updateFirst itemId f l :
  List.find (GameState.isItem itemId) (GameState.updateFirst itemId f l)
  = (fun st => Stack.mk (Stack.itemId st) (f (Stack.quantity st)))
      <$> List.find (GameState.isItem itemId) l.
Proof.
  induction l as [|st l IH]; [reflexivity|]. simpl.
  destruct (GameState.isItem itemId st) eqn:E; simpl.
  - unfold GameState.isItem in *. simpl. rewrite E. reflexivity.
  - rewrite E. exact IH.
Qed.

Lemma find_updateFirst_other itemId other f l :
  itemId <> other ->
  List.find (GameState.isItem other) (GameState.updateFirst itemId f l)
  = List.find (GameState.isItem other) l.
Proof.
  intros Hne. induction l as [|st l IH]; [reflexivity|]. simpl.
  destruct (GameState.isItem itemId st) eqn:E; simpl.
  - rewrite (isItem_other _ _ _ Hne E).
    unfold GameState.isItem in *. simpl.
    apply String.eqb_eq in E. rewrite E.
    destruct (String.eqb itemId other) eqn:E'; [|reflexivity].
    apply String.eqb_eq in E'. contradiction.
  - destruct (GameState.isItem other st); [reflexivity|exact IH].
Qed.

Lemma find_prune itemId l :
  List.find (GameState.isItem itemId)
    (List.filter (fun x => negb (GameState.isItem itemId x)) l) = None.
Proof.
  induction l as [|st l IH]; [reflexivity|]. simpl.
  destruct (GameState.isItem itemId st) eqn:E; simpl; [exact IH|].
  rewrite E. exact IH.
Qed.

Lemma find_prune_other itemId other l :
  itemId <> other ->
  List.find (GameState.isItem other)
    (List.filter (fun x => negb (GameState.isItem itemId x)) l)
  = List.find (GameState.isItem other) l.
Proof.
  intros Hne. induction l as [|st l IH]; [reflexivity|]. simpl.
  destruct (GameState.isItem itemId st) eqn:E; simpl.
  - rewrite (isItem_other _ _ _ Hne E). exact IH.
  - destruct (GameState.isItem other st); [reflexivity|exact IH].
Qed.

Lemma find_push_absent itemId n l :
  List.find (GameState.isItem itemId) l = None ->
  List.find (GameState.isItem itemId) (l ++ [Stack.mk itemId n])
  = Some (Stack.mk itemId n).
Proof.
  induction l as [|st l IH]; simpl; intros H.
  - unfold GameState.isItem. simpl. rewrite String.eqb_refl. reflexivity.
  - destruct (GameState.isItem itemId st); [discriminate|]. auto.
Qed.

Lemma find_push_other itemId other n l :
  itemId <> other ->
  List.find (GameState.isItem other) (l ++ [Stack.mk itemId n])
  = List.find (GameState.isItem other) l.
Proof.
  intros Hne. induction l as [|st l IH]; simpl.
  - unfold GameState.isItem. simpl.
    destruct (String.eqb itemId other) eqn:E; [|reflexivity].
    apply String.eqb_eq in E. contradiction.
  - destruct (GameState.isItem other st); [reflexivity|exact IH].
Qed.

End StackLists.

(** ** Generic-item bookkeeping of the state store *)
Section GenericItems.

Import GameState.

Implicit Types (s : GameState.t) (c itemId : string) (p : option string) (q : Z).

Lemma resolveContainer_idem s c p :
  resolveContainer s (resolveContainer s c p) p = resolveContainer s c p.
Proof.
  unfold resolveContainer.
  destruct (String.eqb c "inventory") eqn:E; [reflexivity|].
  rewrite E. reflexivity.
Qed.

Lemma resolveContainer_stacks s c p m :
  resolveContainer (withGenericItemStacks s m) c p = resolveContainer s c p.
Proof. reflexivity. Qed.

Lemma getGenericItemStack_lookup s c itemId p :
  getGenericItemStack s c itemId p
  = genericItemStacks s !! resolveContainer s c p
    ≫= List.find (isItem itemId).
Proof.
  unfold getGenericItemStack.
  destruct (genericItemStacks s !! resolveContainer s c p); reflexivity.
Qed.

(** The quantity read at a place after its list has been replaced. *)
Lemma quantity_after_write s c c' itemId p l :
  getGenericItemQuantity
    (withGenericItemStacks s (<[resolveContainer s c p := l]> (genericItemStacks s)))
    c' itemId p
  = if decide (resolveContainer s c p = resolveContainer s c' p)
    then match List.find (isItem itemId) l with
         | Some st => Stack.quantity st
         | None => 0
         end
    else getGenericItemQuantity s c' itemId p.
Proof.
  unfold getGenericItemQuantity. rewrite !getGenericItemStack_lookup.
  rewrite resolveContainer_stacks. simpl.
  destruct (decide (resolveContainer s c p = resolveContainer s c' p)) as [e|n].
  - rewrite <- e, lookup_insert_eq. reflexivity.
  - rewrite lookup_insert_ne by exact n. reflexivity.
Qed.

(** A removal that cannot be served returns [false] and leaves the store
    as it was. *)
Lemma removeGenericItems_refused s c itemId q p :
  (match getGenericItemStack s c itemId p with
   | Some st => Stack.quantity st < q
   | None => True
   end) ->
  removeGenericItems s c itemId q p = (false, s).
Proof.
  unfold removeGenericItems. rewrite getGenericItemStack_lookup.
  rewrite (getGenericItemStack_lookup s (resolveContainer s c p)).
  rewrite resolveContainer_idem.
  destruct (genericItemStacks s !! resolveContainer s c p) as [l|]; simpl;
    [|reflexivity].
  destruct (List.find (isItem itemId) l) as [st|]; [|reflexivity].
  intros H. apply Z.ltb_lt in H. rewrite H. reflexivity.
Qed.

(** A removal that can be served: the list it writes back. *)
Lemma removeGenericItems_served s c itemId q p l st :
  genericItemStacks s !! resolveContainer s c p = Some l ->
  List.find (isItem itemId) l = Some st ->
  q <= Stack.quantity st ->
  removeGenericItems s c itemId q p
  = (true,
     withGenericItemStacks s
       (<[resolveContainer s c p :=
            if Stack.quantity st - q =? 0
            then List.filter (fun x => negb (isItem itemId x))
                   (updateFirst itemId (fun n => n - q) l)
            else updateFirst itemId (fun n => n - q) l]> (genericItemStacks s))).
Proof.
  intros Hl Hst Hq. unfold removeGenericItems.
  rewrite (getGenericItemStack_lookup s (resolveContainer s c p)).
  rewrite resolveContainer_idem, Hl. simpl. rewrite Hst.
  destruct (Stack.quantity st <? q) eqn:E; [apply Z.ltb_lt in E; lia|].
  reflexivity.
Qed.

(** Quantities after a served removal: the kind and place concerned lose
    exactly [q]; every other reading is unchanged. *)
Lemma removeGenericItems_quantity s c itemId q p st :
  getGenericItemStack s c itemId p = Some st ->
  q <= Stack.quantity st ->
  exists s',
    removeGenericItems s c itemId q p = (true, s')
    /\ activePlayerId s' = activePlayerId s
    /\ forall c' other,
         getGenericItemQuantity s' c' other p
         = if decide (resolveContainer s c p = resolveContainer s c' p
                      /\ itemId = other)
           then Stack.quantity st - q
           else getGenericItemQuantity s c' other p.
Proof.
  intros Hst Hq. rewrite getGenericItemStack_lookup in Hst.
  destruct (genericItemStacks s !! resolveContainer s c p) as [l|] eqn:Hl;
    [|discriminate].
  simpl in Hst. eexists. split; [exact (removeGenericItems_served _ _ _ _ _ _ _ Hl Hst Hq)|].
  split; [reflexivity|]. intros c' other.
  rewrite quantity_after_write.
  destruct (decide (resolveContainer s c p = resolveContainer s c' p)) as [e|n].
  - destruct (decide (itemId = other)) as [<-|ne].
    + rewrite decide_True by auto.
      destruct (Stack.quantity st - q =? 0) eqn:E.
      * rewrite find_prune. apply Z.eqb_eq in E. lia.
      * rewrite find_updateFirst, Hst. reflexivity.
    + rewrite decide_False by tauto.
      unfold getGenericItemQuantity. rewrite getGenericItemStack_lookup, <- e, Hl.
      simpl. destruct (Stack.quantity st - q =? 0).
      * rewrite find_prune_other, find_updateFirst_other by exact ne. reflexivity.
      * rewrite find_updateFirst_other by exact ne. reflexivity.
  - rewrite decide_False by tauto. reflexivity.
Qed.

(** A served removal that empties the stack leaves no stack of the kind at
    the place. *)
Lemma removeGenericItems_prunes s c itemId p st :
  getGenericItemStack s c itemId p = Some st ->
  getGenericItemStack
    (snd (removeGenericItems s c itemId (Stack.quantity st) p)) c itemId p = None.
Proof.
  intros Hst. rewrite getGenericItemStack_lookup in Hst.
  destruct (genericItemStacks s !! resolveContainer s c p) as [l|] eqn:Hl;
    [|discriminate].
  simpl in Hst.
  rewrite (removeGenericItems_served _ _ _ _ _ _ _ Hl Hst) by lia. simpl.
  rewrite getGenericItemStack_lookup, resolveContainer_stacks. simpl.
  rewrite lookup_insert_eq. simpl.
  rewrite Z.sub_diag. simpl. apply find_prune.
Qed.

(** Quantities after an addition: the kind and place concerned gain
    exactly [q]. *)
Lemma addGenericItems_quantity s c itemId q p c' other :
  getGenericItemQuantity (addGenericItems s c itemId q p) c' other p
  = if decide (resolveContainer s c p = resolveContainer s c' p /\ itemId = other)
    then getGenericItemQuantity s c itemId p + q
    else getGenericItemQuantity s c' other p.
Proof.
  unfold addGenericItems, getGenericItemQuantity.
  rewrite !getGenericItemStack_lookup.
  set (cid := resolveContainer s c p).
  destruct (genericItemStacks s !! cid) as [l|] eqn:Hl.
  - assert (Hr : resolveContainer s cid p = cid) by apply resolveContainer_idem.
    rewrite Hr, Hl. simpl.
    destruct (List.find (isItem itemId) l) as [st|] eqn:Hst; simpl;
      rewrite !resolveContainer_stacks; simpl.
    + destruct (decide (cid = resolveContainer s c' p)) as [e|n].
      * rewrite <- e, lookup_insert_eq. simpl.
        destruct (decide (itemId = other)) as [<-|ne].
        -- rewrite decide_True by auto. rewrite find_updateFirst, Hst. reflexivity.
        -- rewrite decide_False by tauto.
           rewrite find_updateFirst_other by exact ne. rewrite Hl. reflexivity.
      * rewrite decide_False by tauto.
        rewrite lookup_insert_ne by exact n. reflexivity.
    + destruct (decide (cid = resolveContainer s c' p)) as [e|n].
      * rewrite <- e, lookup_insert_eq. simpl.
        destruct (decide (itemId = other)) as [<-|ne].
        -- rewrite decide_True by auto. rewrite find_push_absent by exact Hst.
           reflexivity.
        -- rewrite decide_False by tauto.
           rewrite find_push_other by exact ne. rewrite Hl. reflexivity.
      * rewrite decide_False by tauto.
        rewrite lookup_insert_ne by exact n. reflexivity.
  - assert (Hr : resolveContainer (withGenericItemStacks s
                    (<[cid := []]> (genericItemStacks s))) cid p = cid)
      by exact (resolveContainer_idem s c p).
    rewrite Hr. simpl. rewrite lookup_insert_eq. simpl.
    rewrite !resolveContainer_stacks. simpl.
    destruct (decide (cid = resolveContainer s c' p)) as [e|n].
    + rewrite <- e, lookup_insert_eq. simpl.
      unfold isItem at 1. simpl.
      destruct (decide (itemId = other)) as [<-|ne].
      * rewrite decide_True by auto. rewrite String.eqb_refl. reflexivity.
      * rewrite decide_False by tauto.
        destruct (String.eqb itemId other) eqn:E;
          [apply String.eqb_eq in E; contradiction|].
        rewrite Hl. reflexivity.
    + rewrite decide_False by tauto.
      rewrite !lookup_insert_ne by exact n. reflexivity.
Qed.

End GenericItems.

(** ** Transfers of generic items *)
Section Transfers.

Import GameState.

Implicit Types (s : GameState.t) (itemId : string) (p : option string) (q : Z).

Lemma resolveContainer_active s s' c p :
  activePlayerId s' = activePlayerId s ->
  resolveContainer s' c p = resolveContainer s c p.
Proof. intros H. unfold resolveContainer, pidOf. rewrite H. reflexivity. Qed.

Lemma getGenericItemQuantity_active s s' c itemId p :
  activePlayerId s' = activePlayerId s ->
  genericItemStacks s' = genericItemStacks s ->
  getGenericItemQuantity s' c itemId p = getGenericItemQuantity s c itemId p.
Proof.
  intros Ha Hg. unfold getGenericItemQuantity.
  rewrite !getGenericItemStack_lookup, (resolveContainer_active _ _ _ _ Ha), Hg.
  reflexivity.
Qed.

Lemma getGenericItemQuantity_place s c c' itemId p :
  resolveContainer s c p = resolveContainer s c' p ->
  getGenericItemQuantity s c itemId p = getGenericItemQuantity s c' itemId p.
Proof.
  intros H. unfold getGenericItemQuantity.
  rewrite !getGenericItemStack_lookup, H. reflexivity.
Qed.

(** A transfer whose removal is refused returns [false] and changes
    nothing at all: the addition is not performed. *)
Lemma transferGenericItems_refused s from to itemId q p :
  (match getGenericItemStack s from itemId p with
   | Some st => Stack.quantity st < q
   | None => True
   end) ->
  transferGenericItems s from to itemId q p = (false, s).
Proof.
  intros H. unfold transferGenericItems.
  rewrite (removeGenericItems_refused _ _ _ _ _ H). reflexivity.
Qed.

(** A transfer that is served: the source loses [q] and the destination
    gains [q]; when both names denote one place the reading is unchanged;
    no other kind or place is touched. *)
Lemma transferGenericItems_served s from to itemId q p st :
  getGenericItemStack s from itemId p = Some st ->
  q <= Stack.quantity st ->
  exists s',
    transferGenericItems s from to itemId q p = (true, s')
    /\ forall c other,
         getGenericItemQuantity s' c other p
         = getGenericItemQuantity s c other p
           - (if decide (resolveContainer s from p = resolveContainer s c p
                         /\ itemId = other) then q else 0)
           + (if decide (resolveContainer s to p = resolveContainer s c p
                         /\ itemId = other) then q else 0).
Proof.
  intros Hst Hq.
  destruct (removeGenericItems_quantity _ _ _ _ _ _ Hst Hq) as (s1 & Hrm & Hact & Hqty).
  exists (addGenericItems s1 to itemId q p). split.
  - unfold transferGenericItems. rewrite Hrm. reflexivity.
  - intros c other. rewrite addGenericItems_quantity.
    rewrite !(resolveContainer_active _ _ _ _ Hact).
    assert (Hsrc : getGenericItemQuantity s from itemId p = Stack.quantity st).
    { unfold getGenericItemQuantity. rewrite Hst. reflexivity. }
    rewrite !Hqty.
    assert (Hplace : forall a, resolveContainer s a p = resolveContainer s c p ->
              getGenericItemQuantity s a other p = getGenericItemQuantity s c other p)
      by (intros a Ha; apply getGenericItemQuantity_place; exact Ha).
    destruct (decide (itemId = other)) as [<-|ne];
      [|repeat case_decide; destruct_and?; try contradiction; lia].
    destruct (decide (resolveContainer s from p = resolveContainer s c p)) as [ef|nf];
      destruct (decide (resolveContainer s to p = resolveContainer s c p)) as [et|nt];
      repeat case_decide; destruct_and?;
      try (exfalso;
           match goal with
           | H : ~ (_ /\ _) |- _ => apply H; split; congruence
           | H : _ <> _ |- _ => apply H; congruence
           end);
      rewrite <- ?(Hplace from ef), <- ?(Hplace to et), ?Hsrc; lia.
Qed.

(** The sum over source and destination is the same before and after. *)
Lemma transferGenericItems_conserves s from to itemId q p s' :
  transferGenericItems s from to itemId q p = (true, s') ->
  getGenericItemQuantity s' from itemId p + getGenericItemQuantity s' to itemId p
  = getGenericItemQuantity s from itemId p + getGenericItemQuantity s to itemId p.
Proof.
  intros Ht.
  destruct (getGenericItemStack s from itemId p) as [st|] eqn:Hst.
  - destruct (Z_lt_le_dec (Stack.quantity st) q) as [Hlt|Hle].
    + rewrite transferGenericItems_refused in Ht by (rewrite Hst; exact Hlt).
      discriminate.
    + destruct (transferGenericItems_served s from to itemId q p st Hst Hle)
        as (s1 & Ht1 & Hqty).
      rewrite Ht in Ht1. injection Ht1 as <-. rewrite !Hqty.
      repeat case_decide; destruct_and?; try lia;
        exfalso;
        match goal with
        | H : ~ (_ /\ _) |- _ => apply H; split; congruence
        end.
  - rewrite transferGenericItems_refused in Ht by (rewrite Hst; exact I).
    discriminate.
Qed.

End Transfers.

(** ** Positive quantities are kept by transfers of a positive amount *)
Section Stocked.

Import GameState.

Lemma In_updateFirst itemId f (l : list Stack.t) x :
  In x (updateFirst itemId f l) ->
  In x l \/ exists st0, List.find (isItem itemId) l = Some st0
                        /\ x = Stack.mk (Stack.itemId st0) (f (Stack.quantity st0)).
Proof.
  induction l as [|st l IH]; simpl; [tauto|].
  destruct (isItem itemId st) eqn:E; simpl.
  - intros [<-|H]; [right; eauto|left; auto].
  - intros [<-|H]; [left; auto|]. destruct (IH H) as [H'|H']; auto.
Qed.

Lemma stocked_write s cid l :
  stocked s -> (forall st, In st l -> 0 < Stack.quantity st) ->
  stocked (withGenericItemStacks s (<[cid := l]> (genericItemStacks s))).
Proof.
  intros Hs Hl cid' l' st. simpl.
  destruct (decide (cid = cid')) as [<-|n].
  - rewrite lookup_insert_eq. intros [= <-]. apply Hl.
  - rewrite lookup_insert_ne by exact n. apply Hs.
Qed.

Lemma removeGenericItems_stocked s c itemId q p :
  stocked s -> stocked (snd (removeGenericItems s c itemId q p)).
Proof.
  intros Hs.
  destruct (genericItemStacks s !! resolveContainer s c p) as [l|] eqn:Hl.
  2: { unfold removeGenericItems. rewrite Hl. exact Hs. }
  destruct (List.find (isItem itemId) l) as [st|] eqn:Hst.
  2: { rewrite removeGenericItems_refused; [exact Hs|].
       rewrite getGenericItemStack_lookup, Hl. simpl. rewrite Hst. exact I. }
  destruct (Z_lt_le_dec (Stack.quantity st) q) as [Hlt|Hle].
  { rewrite removeGenericItems_refused; [exact Hs|].
    rewrite getGenericItemStack_lookup, Hl. simpl. rewrite Hst. exact Hlt. }
  rewrite (removeGenericItems_served _ _ _ _ _ _ _ Hl Hst Hle). simpl.
  apply stocked_write; [exact Hs|]. intros x Hx.
  destruct (Stack.quantity st - q =? 0) eqn:E.
  - apply filter_In in Hx as [Hx Hnot].
    apply In_updateFirst in Hx as [Hx|(st0 & Hf & ->)]; [exact (Hs _ _ _ Hl Hx)|].
    apply find_some in Hf as [_ Hf]. unfold isItem in *. simpl in Hnot.
    rewrite Hf in Hnot. discriminate.
  - apply Z.eqb_neq in E.
    apply In_updateFirst in Hx as [Hx|(st0 & Hf & ->)]; [exact (Hs _ _ _ Hl Hx)|].
    rewrite Hst in Hf. injection Hf as <-. simpl. lia.
Qed.

Lemma addGenericItems_stocked s c itemId q p :
  stocked s -> 0 < q -> stocked (addGenericItems s c itemId q p).
Proof.
  intros Hs Hq. unfold addGenericItems.
  set (cid := resolveContainer s c p).
  destruct (genericItemStacks s !! cid) as [l|] eqn:Hl.
  - assert (Hr : resolveContainer s cid p = cid) by apply resolveContainer_idem.
    rewrite getGenericItemStack_lookup, Hr, Hl. simpl.
    destruct (List.find (isItem itemId) l) as [st|] eqn:Hst.
    + apply stocked_write; [exact Hs|]. intros x Hx.
      apply In_updateFirst in Hx as [Hx|(st0 & Hf & ->)]; [exact (Hs _ _ _ Hl Hx)|].
      rewrite Hst in Hf. injection Hf as <-. simpl.
      apply find_some in Hst as [Hin _]. specialize (Hs _ _ _ Hl Hin). lia.
    + apply stocked_write; [exact Hs|]. intros x Hx.
      apply in_app_or in Hx as [Hx|[<-|[]]]; [exact (Hs _ _ _ Hl Hx)|exact Hq].
  - assert (Hr : resolveContainer (withGenericItemStacks s
                    (<[cid := []]> (genericItemStacks s))) cid p = cid)
      by exact (resolveContainer_idem s c p).
    rewrite getGenericItemStack_lookup, Hr.
    simpl. rewrite lookup_insert_eq. simpl.
    intros cid' l' st. simpl.
    destruct (decide (cid = cid')) as [<-|n].
    + rewrite lookup_insert_eq. intros [= <-] [<-|[]]. exact Hq.
    + rewrite !lookup_insert_ne by exact n. apply Hs.
Qed.

(** A transfer of a positive quantity on a store without empty stacks
    leaves a store without empty stacks. *)
Lemma transferGenericItems_stocked s from to itemId q p :
  stocked s -> 0 < q ->
  stocked (snd (transferGenericItems s from to itemId q p)).
Proof.
  intros Hs Hq. unfold transferGenericItems.
  pose proof (removeGenericItems_stocked s from itemId q p Hs) as H1.
  destruct (removeGenericItems s from itemId q p) as [[|] s1]; simpl in *.
  - apply addGenericItems_stocked; assumption.
  - exact H1.
Qed.

End Stocked.

(** ** Transfers of a quantity that is not positive *)

(** C1 (the code departs from the claim).  Moving a quantity of 0 of a
    kind the destination does not hold succeeds and appends a stack of
    quantity 0 to the destination's list, where it stays: with three gold
    coins on the floor of the hall, [transferGenericItems('hall',
    'inventory', 'gold-coin', 0)] returns [true], leaves the three coins on
    the floor and leaves the list [{gold-coin, 0}] in the player's
    inventory. *)
Theorem transfer_of_nothing_leaves_empty_stack :
  let r := GameState.transferGenericItems Sample.coinsOnFloor
             "hall" "inventory" "gold-coin" 0 None in
  fst r = true
  /\ GameState.genericItemStacks (snd r) !! "hall" = Some [Stack.mk "gold-coin" 3]
  /\ GameState.genericItemStacks (snd r) !! "inventory-p1"
     = Some [Stack.mk "gold-coin" 0]
  /\ ~ noEmptyStack (snd r) "inventory-p1" "gold-coin".
Proof.
  assert (H : GameState.genericItemStacks
                (snd (GameState.transferGenericItems Sample.coinsOnFloor
                        "hall" "inventory" "gold-coin" 0 None)) !! "inventory-p1"
              = Some [Stack.mk "gold-coin" 0]) by (vm_compute; reflexivity).
  repeat split; try (vm_compute; reflexivity).
  intros Hno. exact (Hno _ _ H (or_introl eq_refl) eq_refl eq_refl).
Qed.

(** The command line reaches that call: "take 0 gold coin" answers
    "You take gold coins." and leaves the empty stack in the inventory. *)
Lemma take_zero_leaves_empty_stack :
  let r := Sample.run Sample.coinsOnFloor "take 0 gold coin" in
  fst r = Some (mkResult "You take gold coins." true)
  /\ GameState.genericItemStacks (snd r) !! "inventory-p1"
     = Some [Stack.mk "gold-coin" 0].
Proof. split; vm_compute; reflexivity. Qed.

(** A negative quantity is served as well: "take -3 gold coin", typed by a
    player who carries three coins, raises the floor's stack from three to
    six and leaves the inventory's stack in place at quantity 0. *)
Lemma take_negative_empties_inventory_stack :
  let s := GameState.addGenericItems Sample.coinsOnFloor "inventory" "gold-coin" 3 None in
  let r := Sample.run s "take -3 gold coin" in
  GameState.genericItemStacks s !! "inventory-p1" = Some [Stack.mk "gold-coin" 3]
  /\ fst r = Some (mkResult "You take gold coins." true)
  /\ GameState.genericItemStacks (snd r) !! "hall" = Some [Stack.mk "gold-coin" 6]
  /\ GameState.genericItemStacks (snd r) !! "inventory-p1"
     = Some [Stack.mk "gold-coin" 0].
Proof. repeat split; vm_compute; reflexivity. Qed.

(** ** Quantities of TAKE and DROP *)
Section Quantities.

Variable game : Game.t.

(** Without a quantity the whole stack is meant. *)
Lemma actualQuantity_default available :
  actualQuantity None available = available
  /\ actualQuantity (Some QAll) available = available
  /\ exceeds None available = false
  /\ exceeds (Some QAll) available = false.
Proof. repeat split. Qed.

(** TAKE from a container refuses a number above the stack's quantity,
    names that quantity and changes nothing. *)
Lemma takeFromContainer_excess s objectName containerName container item stack n :
  findUniqueItemAtLocation game s containerName = Some container ->
  UniqueItem.isContainer container = true ->
  GameState.isContainerOpen s (UniqueItem.id container) = true ->
  findMatchingStack game
    (GameState.getGenericItemStacksAt s (UniqueItem.id container) None) objectName
  = Some (item, stack) ->
  Stack.quantity stack < n ->
  takeFromContainer game s objectName containerName (Some (QNum n))
  = ("There are only " +:+ Js.ofZ (Stack.quantity stack) +:+ " "
     +:+ GenericItem.getDisplayName item (Stack.quantity stack)
     +:+ " in the " +:+ UniqueItem.name container +:+ ".", s).
Proof.
  intros Hc Hic Hopen Hst Hlt. unfold takeFromContainer.
  rewrite Hc, Hic, Hopen, Hst. simpl.
  apply Z.ltb_lt in Hlt. rewrite Hlt. reflexivity.
Qed.

(** DROP refuses a number above the carried quantity in the same way. *)
Lemma cmdDrop_excess s objectName item stack n :
  Js.truthy (Some objectName) = true ->
  findUniqueItemInInventory game s objectName = None ->
  findGenericItemInInventory game s objectName = Some (item, stack) ->
  Stack.quantity stack < n ->
  cmdDrop game s (Some objectName) (Some (QNum n))
  = ("You only have " +:+ Js.ofZ (Stack.quantity stack) +:+ " "
     +:+ GenericItem.getDisplayName item (Stack.quantity stack) +:+ ".", s).
Proof.
  intros Hn Hu Hg Hlt. unfold cmdDrop.
  rewrite Hn. simpl. rewrite Hu, Hg. simpl.
  apply Z.ltb_lt in Hlt. rewrite Hlt. reflexivity.
Qed.

End Quantities.

(** The chest of the sample world, unlocked and opened: "take 5 gold coin
    from chest" with three coins inside is refused with a message that
    names 3, and nothing moves. *)
Lemma take_five_from_chest_of_three :
  let s := Sample.after ["take iron key"; "unlock chest"; "open chest"] in
  let r := Sample.run s "take 5 gold coin from chest" in
  GameState.getGenericItemQuantity s "chest" "gold-coin" None = 3
  /\ fst r = Some (mkResult "There are only 3 gold coins in the wooden chest." true)
  /\ snd r = s.
Proof. repeat split; vm_compute; reflexivity. Qed.

(** C5 (the code departs from the claim).  TAKE of a generic item lying at
    the location does not refuse a number above the available quantity: it
    takes what is there.  With three gold coins on the floor, "take 5 gold
    coin" answers "You take 3 gold coins." and moves the three coins into
    the inventory. *)
Theorem take_from_floor_caps_excess :
  let s := Sample.coinsOnFloor in
  let r := Sample.run s "take 5 gold coin" in
  GameState.getGenericItemQuantity s "hall" "gold-coin" None = 3
  /\ GameState.getGenericItemQuantity s "inventory" "gold-coin" None = 0
  /\ fst r = Some (mkResult "You take 3 gold coins." true)
  /\ GameState.getGenericItemQuantity (snd r) "hall" "gold-coin" None = 0
  /\ GameState.getGenericItemQuantity (snd r) "inventory" "gold-coin" None = 3.
Proof. repeat split; vm_compute; reflexivity. Qed.

(** ** Verb resolution *)
Section VerbResolution.







End VerbResolution.

(** ** Turn consumption and rejected input *)
Section TurnFlag.

Variable game : Game.t.
Variable viewLocation : GameState.t -> string -> Location.t -> LocationView.
Variable cmdQuest : GameState.t -> option string -> Outcome.
Variable numericToken : string -> option Z.




End TurnFlag.


(** ** Serialization round trip *)

(** C8 (as amended).  Serializing a store with [toJSON] and constructing a
    store from the record reproduces the item locations, stack tables,
    container, exit and quest states, global flags and every player
    record; it reproduces the active player id unless that id is the empty
    string, which is read back as [null]. *)
Theorem snapshot_round_trip now game s :
  let s' := fromJSON now game (Some (toJSON s)) in
  GameState.uniqueItemLocations s' = GameState.uniqueItemLocations s
  /\ GameState.genericItemStacks s' = GameState.genericItemStacks s
  /\ GameState.containerStates s' = GameState.containerStates s
  /\ GameState.exitStates s' = GameState.exitStates s
  /\ GameState.questStates s' = GameState.questStates s
  /\ GameState.flags s' = GameState.flags s
  /\ GameState.players s' = GameState.players s
  /\ GameState.activePlayerId s'
     = (if bool_decide (GameState.activePlayerId s = Some EmptyString)
        then None else GameState.activePlayerId s)
  /\ (GameState.activePlayerId s <> Some EmptyString -> s' = s).
Proof.
  simpl. unfold fromJSON, constructor, restoreState, toJSON. simpl.
  repeat split.
  - destruct (GameState.activePlayerId s) as [[|c r]|]; reflexivity.
  - intros Hne. destruct s as [gid pl [[|c r]|] u g n cs es fl qs];
      simpl in *; [congruence|reflexivity|reflexivity].
Qed.

Lemma snapshot_round_trip_witness :
  fromJSON 0 Sample.game (Some (toJSON Sample.start)) = Sample.start.
Proof.
  apply (snapshot_round_trip 0 Sample.game Sample.start). discriminate.
Defined.

(** C8, the case the claim as stated misses: a store whose active player
    id is the empty string comes back with no active player. *)
Lemma round_trip_drops_empty_player_id :
  GameState.activePlayerId Sample.anonymous = Some EmptyString
  /\ GameState.activePlayerId
       (fromJSON 0 Sample.game (Some (toJSON Sample.anonymous))) = None
  /\ GameState.activePlayerId
       (fromJSON 0 Sample.game (Some (toJSON Sample.anonymous)))
     <> GameState.activePlayerId Sample.anonymous.
Proof. repeat split; vm_compute; try reflexivity. discriminate. Qed.

(** ** Initial exit states *)
Section InitialExits.

Lemma initLocation_exitStates s location :
  GameState.exitStates (initLocation s location)
  = fold_left writeExit
      (List.map (fun exit =>
                   (GameState.exitKey (Location.id location) (Exit.direction exit), exit))
                (Location.exits location))
      (GameState.exitStates s).
Proof.
  unfold initLocation. generalize s.
  induction (Location.exits location) as [|e l IH]; intros s0; simpl; [reflexivity|].
  rewrite IH. reflexivity.
Qed.

Lemma initLocations_exitStates locations s :
  GameState.exitStates (fold_left initLocation locations s)
  = fold_left writeExit
      (flat_map (fun location =>
                   List.map (fun exit =>
                               (GameState.exitKey (Location.id location)
                                  (Exit.direction exit), exit))
                            (Location.exits location)) locations)
      (GameState.exitStates s).
Proof.
  revert s. induction locations as [|loc l IH]; intros s; simpl; [reflexivity|].
  rewrite IH, initLocation_exitStates, fold_left_app. reflexivity.
Qed.

Lemma fold_initUniqueItem_exitStates items s :
  GameState.exitStates (fold_left initUniqueItem items s) = GameState.exitStates s.
Proof.
  revert s. induction items as [|i l IH]; intros s; simpl; [reflexivity|].
  rewrite IH. unfold initUniqueItem. repeat case_match; reflexivity.
Qed.

Lemma fold_initNpc_exitStates npcs s :
  GameState.exitStates (fold_left initNpc npcs s) = GameState.exitStates s.
Proof.
  revert s. induction npcs as [|i l IH]; intros s; simpl; [reflexivity|].
  rewrite IH. unfold initNpc. case_match; reflexivity.
Qed.

Lemma fold_initQuest_exitStates quests s :
  GameState.exitStates (fold_left initQuest quests s) = GameState.exitStates s.
Proof.
  revert s. induction quests as [|i l IH]; intros s; simpl; [reflexivity|].
  rewrite IH. reflexivity.
Qed.

Lemma newState_exitStates game :
  GameState.exitStates (newState game) = fold_left writeExit (declaredExits game) ∅.
Proof.
  unfold newState, declaredExits.
  rewrite initLocations_exitStates, fold_initQuest_exitStates,
    fold_initNpc_exitStates, fold_initUniqueItem_exitStates.
  reflexivity.
Qed.

(** After the fold, a key that some exit of the list declares holds the
    lock value those exits agree on. *)
Lemma fold_writeExit_agree l m key b :
  (forall e, In (key, e) l -> initialExitLock e = b) ->
  (exists e, In (key, e) l) \/ m !! key = Some (ExitState.mk b) ->
  fold_left writeExit l m !! key = Some (ExitState.mk b).
Proof.
  revert m. induction l as [|[k e] l IH]; intros m Hall Hsome; simpl.
  - destruct Hsome as [[e []]|H]; exact H.
  - apply IH; [intros e' He'; apply Hall; right; exact He'|].
    unfold writeExit. simpl.
    destruct (decide (k = key)) as [->|n].
    + right. rewrite lookup_insert_eq. f_equal. f_equal. apply Hall. left. reflexivity.
    + rewrite lookup_insert_ne by exact n.
      destruct Hsome as [[e' [He'|He']]|H]; [congruence|left; eauto|right; exact H].
Qed.

(** In a store constructed from a world definition, an exit declared at a
    location starts locked exactly when its [locked] flag is set or it
    names a [requiredItem], provided the exits declared under the same key
    [`${locationId}-${direction}`] agree on that. *)
Lemma new_game_exit_lock game location exit :
  In location (Game.locations game) ->
  In exit (Location.exits location) ->
  (forall e, In (GameState.exitKey (Location.id location) (Exit.direction exit), e)
               (declaredExits game) ->
             initialExitLock e = initialExitLock exit) ->
  (GameState.isExitLocked (newState game) (Location.id location) (Exit.direction exit)
   = true
   <-> Exit.locked exit = true \/ Js.truthy (Exit.requiredItem exit) = true)
  /\ (Exit.locked exit = false -> Js.truthy (Exit.requiredItem exit) = true ->
      GameState.isExitLocked (newState game) (Location.id location)
        (Exit.direction exit) = true).
Proof.
  intros Hloc Hexit Hagree.
  assert (H : GameState.isExitLocked (newState game) (Location.id location)
                (Exit.direction exit) = initialExitLock exit).
  { unfold GameState.isExitLocked, GameState.getExitState.
    rewrite newState_exitStates.
    rewrite (fold_writeExit_agree _ _ _ (initialExitLock exit) Hagree); [reflexivity|].
    left. exists exit. unfold declaredExits. apply in_flat_map.
    exists location. split; [exact Hloc|]. apply in_map_iff. eauto. }
  rewrite H. unfold initialExitLock. split.
  - rewrite orb_true_iff. tauto.
  - intros -> ->. reflexivity.
Qed.

(** The exit north of the hall of the sample world, which names a required
    item and is not marked locked, starts locked. *)
Lemma hall_exit_starts_locked :
  GameState.isExitLocked (newState Sample.game) "hall" "north" = true.
Proof.
  apply (proj2 (new_game_exit_lock Sample.game Sample.hall Sample.northExit
                  ltac:(simpl; tauto) ltac:(simpl; tauto)
                  ltac:(simpl; intros e [[= <-]|[[=]|[]]]; reflexivity)));
    reflexivity.
Qed.

(** C10 (the code departs from the claim).  Two declared exits whose
    location id and direction concatenate to the same key share one entry
    of [exitStates], written by the later one.  In the caves, the exit
    north-east of the cave names a required item, the exit east of
    "cave-north" is declared after it under the same key "cave-north-east",
    and the former starts unlocked: a player without the lantern walks
    through it. *)
Theorem shared_exit_key_starts_unlocked :
  In Sample.cave (Game.locations Sample.caves)
  /\ In Sample.gatedExit (Location.exits Sample.cave)
  /\ Exit.requiredItem Sample.gatedExit = Some "lantern"
  /\ GameState.exitKey "cave" "north-east" = GameState.exitKey "cave-north" "east"
  /\ GameState.isExitLocked (newState Sample.caves) "cave" "north-east" = false
  /\ GameState.isUniqueItemInInventory Sample.inCave "lantern" None = false
  /\ GameState.getCurrentLocation
       (snd (cmdGo Sample.caves Sample.view Sample.inCave (Some "north-east")))
     = Some "cave-north".
Proof.
  split; [left; reflexivity|]. split; [left; reflexivity|].
  split; [reflexivity|]. split; [reflexivity|].
  split; [vm_compute; reflexivity|]. split; vm_compute; reflexivity.
Qed.

End InitialExits.

(** ** Quest completion *)
Section QuestCheck.

Variable game : Game.t.

Lemma rewards_untouched (l : list string) s :
  GameState.questStates (fold_left grantReward l s) = GameState.questStates s
  /\ GameState.flags (fold_left grantReward l s) = GameState.flags s
  /\ GameState.players (fold_left grantReward l s) = GameState.players s.
Proof.
  revert s. induction l as [|x l IH]; intros s; simpl; [auto|].
  destruct (IH (grantReward s x)) as (-> & -> & ->). auto.
Qed.

Lemma checkQuest_flags acc quest :
  GameState.flags (snd (checkQuest acc quest)) = GameState.flags (snd acc).
Proof.
  destruct acc as [messages s]. unfold checkQuest.
  repeat case_match; simpl; try reflexivity;
    rewrite (proj1 (proj2 (rewards_untouched _ _)));
    unfold GameState.addScore; repeat case_match; reflexivity.
Qed.

(** One step of the loop either leaves the quest table alone or marks the
    quest it visits as completed, and it does the latter only when the quest
    is active and [isComplete] holds. *)
Lemma checkQuest_questStates acc quest :
  GameState.questStates (snd (checkQuest acc quest))
  = if bool_decide (GameState.questStates (snd acc) !! Quest.id quest = Some "active")
       && Quest.isComplete quest (snd acc)
    then <[Quest.id quest := "completed"]> (GameState.questStates (snd acc))
    else GameState.questStates (snd acc).
Proof.
  destruct acc as [messages s]. unfold checkQuest. simpl.
  assert (Hq : bool_decide (GameState.getQuestState s (Quest.id quest) = Some "active")
               = bool_decide (GameState.questStates s !! Quest.id quest = Some "active")).
  { unfold GameState.getQuestState, Js.orElse, Js.truthy.
    destruct (GameState.questStates s !! Quest.id quest) as [x|] eqn:E;
      [|reflexivity].
    destruct (String.eqb x EmptyString) eqn:E'; simpl; [|reflexivity].
    apply String.eqb_eq in E'. subst x.
    rewrite !bool_decide_eq_false_2 by discriminate. reflexivity. }
  rewrite Hq.
  destruct (bool_decide (GameState.questStates s !! Quest.id quest = Some "active"));
    simpl; [|reflexivity].
  destruct (Quest.isComplete quest s); simpl; [|reflexivity].
  rewrite (proj1 (rewards_untouched _ _)).
  unfold GameState.addScore. repeat case_match; reflexivity.
Qed.

(** For a quest on the all-required policy with objectives and without a
    custom check, [isComplete] on an active quest is the test that every
    required objective has its flag. *)
Lemma isComplete_all_required q s :
  GameState.questStates s !! Quest.id q = Some "active" ->
  Quest.completionCheck q = None ->
  Quest.objectives q <> [] ->
  Quest.requireAllObjectives q = true ->
  Quest.isComplete q s = true <-> requiredObjectivesDone s q.
Proof.
  intros Hact Hcheck Hobj Hall. unfold Quest.isComplete.
  assert (Hq : GameState.getQuestState s (Quest.id q) = Some "active")
    by (unfold GameState.getQuestState; rewrite Hact; reflexivity).
  rewrite Hq, bool_decide_eq_true_2 by reflexivity. simpl.
  rewrite Hcheck, Hall.
  destruct (Quest.objectives q) as [|o l] eqn:E; [contradiction|].
  rewrite <- E. rewrite forallb_forall. unfold requiredObjectivesDone.
  split; intros H o' Hin.
  - intros Hreq. specialize (H o' Hin). rewrite Hreq in H. exact H.
  - specialize (H o' Hin). destruct (Objective.required o'); simpl; auto.
Qed.

Lemma requiredObjectivesDone_flags s s' q :
  GameState.flags s' = GameState.flags s ->
  requiredObjectivesDone s' q <-> requiredObjectivesDone s q.
Proof.
  intros Hf. unfold requiredObjectivesDone, Quest.objectiveDone, GameState.getFlag.
  rewrite Hf. reflexivity.
Qed.

Lemma requiredObjectivesDone_dec s q :
  requiredObjectivesDone s q \/ ~ requiredObjectivesDone s q.
Proof.
  destruct (forallb (fun o => negb (Objective.required o) || Quest.objectiveDone s q o)
              (Quest.objectives q)) eqn:E.
  - left. rewrite forallb_forall in E. intros o Hin Hreq.
    specialize (E o Hin). rewrite Hreq in E. exact E.
  - right. intros H. apply not_true_iff_false in E. apply E.
    apply forallb_forall. intros o Hin. specialize (H o Hin).
    destruct (Objective.required o); simpl; auto.
Qed.

(** The entry of a quest id after one step of the loop. *)
Lemma checkQuest_lookup acc quest key :
  GameState.questStates (snd (checkQuest acc quest)) !! key
  = if bool_decide (GameState.questStates (snd acc) !! Quest.id quest = Some "active")
       && Quest.isComplete quest (snd acc) && bool_decide (Quest.id quest = key)
    then Some "completed"
    else GameState.questStates (snd acc) !! key.
Proof.
  rewrite checkQuest_questStates.
  destruct (bool_decide (_ = Some "active") && Quest.isComplete quest (snd acc));
    simpl; [|reflexivity].
  case_bool_decide as Hk.
  - rewrite Hk, lookup_insert_eq. reflexivity.
  - rewrite lookup_insert_ne by exact Hk. reflexivity.
Qed.

(** An entry that is not ['active'] is never touched by the loop. *)
Lemma fold_checkQuest_not_active l acc key :
  GameState.questStates (snd acc) !! key <> Some "active" ->
  GameState.questStates (snd (fold_left checkQuest l acc)) !! key
  = GameState.questStates (snd acc) !! key.
Proof.
  revert acc. induction l as [|q' l IH]; intros acc Hna; simpl; [reflexivity|].
  assert (Hstep : GameState.questStates (snd (checkQuest acc q')) !! key
                  = GameState.questStates (snd acc) !! key).
  { rewrite checkQuest_lookup.
    case_bool_decide as Hact; simpl; [|reflexivity].
    destruct (Quest.isComplete q' (snd acc)); simpl; [|reflexivity].
    case_bool_decide as Hk; [|reflexivity].
    rewrite Hk in Hact. contradiction. }
  rewrite IH; rewrite Hstep; [reflexivity|exact Hna].
Qed.

Section OneQuest.

Variables (s : GameState.t) (q : Quest.t).
Hypothesis Hall : Quest.requireAllObjectives q = true.
Hypothesis Hcheck : Quest.completionCheck q = None.
Hypothesis Hobj : Quest.objectives q <> [].

(** While the required objectives are not all done, the quest stays
    active through the loop. *)
Lemma fold_checkQuest_pending l acc :
  (forall q', In q' l -> Quest.id q' = Quest.id q -> q' = q) ->
  GameState.flags (snd acc) = GameState.flags s ->
  ~ requiredObjectivesDone s q ->
  GameState.questStates (snd acc) !! Quest.id q = Some "active" ->
  GameState.questStates (snd (fold_left checkQuest l acc)) !! Quest.id q
  = Some "active".
Proof.
  revert acc. induction l as [|q' l IH]; intros acc Huniq Hfl Hnot Hact; simpl;
    [exact Hact|].
  apply IH.
  - intros q'' Hin. apply Huniq. right. exact Hin.
  - rewrite checkQuest_flags. exact Hfl.
  - exact Hnot.
  - rewrite checkQuest_lookup.
    case_bool_decide as Hact'; simpl; [|exact Hact].
    destruct (Quest.isComplete q' (snd acc)) eqn:Hc; simpl; [|exact Hact].
    case_bool_decide as Hk; [|exact Hact].
    rewrite (Huniq q' (or_introl eq_refl) Hk) in Hc.
    apply (isComplete_all_required q (snd acc) Hact Hcheck Hobj Hall) in Hc.
    apply (requiredObjectivesDone_flags s (snd acc) q Hfl) in Hc. contradiction.
Qed.

(** Once the loop has visited the quest, its entry is settled. *)
Lemma fold_checkQuest_visited l acc :
  (forall q', In q' l -> Quest.id q' = Quest.id q -> q' = q) ->
  GameState.flags (snd acc) = GameState.flags s ->
  In q l ->
  GameState.questStates (snd acc) !! Quest.id q = Some "active" ->
  (requiredObjectivesDone s q ->
   GameState.questStates (snd (fold_left checkQuest l acc)) !! Quest.id q
   = Some "completed")
  /\ (~ requiredObjectivesDone s q ->
      GameState.questStates (snd (fold_left checkQuest l acc)) !! Quest.id q
      = Some "active").
Proof.
  intros Huniq Hfl Hin Hact. split.
  - intros Hdone. revert acc Huniq Hfl Hin Hact.
    induction l as [|q' l IH]; intros acc Huniq Hfl Hin Hact; [destruct Hin|].
    simpl.
    assert (Hfl' : GameState.flags (snd (checkQuest acc q')) = GameState.flags s)
      by (rewrite checkQuest_flags; exact Hfl).
    destruct (decide (Quest.id q' = Quest.id q)) as [Hk|Hk].
    + rewrite (Huniq q' (or_introl eq_refl) Hk).
      rewrite fold_checkQuest_not_active;
        rewrite checkQuest_lookup, bool_decide_eq_true_2 by exact Hact;
        rewrite (proj2 (isComplete_all_required q (snd acc) Hact Hcheck Hobj Hall))
          by (apply (requiredObjectivesDone_flags s (snd acc) q Hfl); exact Hdone);
        rewrite bool_decide_eq_true_2 by reflexivity; simpl;
        [reflexivity|discriminate].
    + apply IH.
      * intros q'' Hin'. apply Huniq. right. exact Hin'.
      * exact Hfl'.
      * destruct Hin as [->|Hin]; [contradiction Hk; reflexivity|exact Hin].
      * rewrite checkQuest_lookup.
        rewrite (bool_decide_eq_false_2 _ Hk), andb_false_r. exact Hact.
  - intros Hnot. apply fold_checkQuest_pending; assumption.
Qed.

End OneQuest.

(** C4 (as amended).  For a quest of the game that is the only one with
    its id, is on the all-required policy, has at least one objective and
    no custom completion check, and is ['active']: the per-turn check makes
    it ['completed'] exactly when every required objective has its flag
    [quest-{questId}-objective-{objectiveId}] set to a truthy value, and
    leaves it ['active'] otherwise; so with two required objectives and only
    the first flag set it stays ['active'].  An entry that is not
    ['active'] is left as it is. *)
Theorem quest_check_all_required s q :
  In q (Game.quests game) ->
  (forall q', In q' (Game.quests game) -> Quest.id q' = Quest.id q -> q' = q) ->
  Quest.requireAllObjectives q = true ->
  Quest.completionCheck q = None ->
  Quest.objectives q <> [] ->
  GameState.questStates s !! Quest.id q = Some "active" ->
  let after := GameState.questStates (snd (checkQuestProgress game s)) in
  (after !! Quest.id q = Some "completed" <-> requiredObjectivesDone s q)
  /\ (~ requiredObjectivesDone s q -> after !! Quest.id q = Some "active")
  /\ (forall o1 o2,
        Quest.objectives q = [o1; o2] ->
        Objective.required o1 = true -> Objective.required o2 = true ->
        Quest.objectiveDone s q o1 = true -> Quest.objectiveDone s q o2 = false ->
        after !! Quest.id q = Some "active")
  /\ (forall key,
        GameState.questStates s !! key <> Some "active" ->
        after !! key = GameState.questStates s !! key).
Proof.
  intros Hin Huniq Hall Hcheck Hobj Hact after.
  assert (Hafter : after = GameState.questStates
                             (snd (fold_left checkQuest (Game.getQuests game) ([], s)))).
  { unfold after, checkQuestProgress.
    destruct (fold_left checkQuest (Game.getQuests game) ([], s)) as [[|m ms] s1];
      reflexivity. }
  destruct (fold_checkQuest_visited s q Hall Hcheck Hobj (Game.getQuests game) ([], s)
              Huniq eq_refl Hin Hact) as [Hdone Hpending].
  rewrite <- Hafter in Hdone, Hpending.
  split; [|split; [|split]].
  - split; [|exact Hdone].
    intros Hc. destruct (requiredObjectivesDone_dec s q) as [H|H]; [exact H|].
    rewrite (Hpending H) in Hc. discriminate.
  - exact Hpending.
  - intros o1 o2 Ho Hr1 Hr2 Hd1 Hd2. apply Hpending. intros H.
    specialize (H o2). rewrite Ho in H.
    rewrite H in Hd2; [discriminate|right; left; reflexivity|exact Hr2].
  - intros key Hna. rewrite Hafter. apply fold_checkQuest_not_active. exact Hna.
Qed.

End QuestCheck.

Lemma quest_check_all_required_witness :
  GameState.questStates (snd (checkQuestProgress Sample.game Sample.oneObjectiveDone))
    !! "find-treasure" = Some "active"
  /\ GameState.questStates (snd (checkQuestProgress Sample.game Sample.bothObjectivesDone))
       !! "find-treasure" = Some "completed".
Proof.
  assert (Huniq : forall q', In q' (Game.quests Sample.game) ->
                    Quest.id q' = Quest.id Sample.treasureQuest ->
                    q' = Sample.treasureQuest).
  { intros q' [<-|[<-|[]]]; [reflexivity|discriminate]. }
  split.
  - apply (proj1 (proj2 (proj2
             (quest_check_all_required Sample.game Sample.oneObjectiveDone
                Sample.treasureQuest ltac:(simpl; tauto) Huniq eq_refl eq_refl
                ltac:(discriminate) eq_refl)))
             (Objective.mk "open-chest" "Open the chest" true)
             (Objective.mk "collect-treasure" "Collect the treasure" true));
      reflexivity.
  - apply (proj1 (quest_check_all_required Sample.game Sample.bothObjectivesDone
                    Sample.treasureQuest ltac:(simpl; tauto) Huniq eq_refl eq_refl
                    ltac:(discriminate) eq_refl)).
    intros o [<-|[<-|[]]] _; reflexivity.
Defined.

(** C4, the cases the claim as stated misses.  A quest on the
    all-required policy without objectives has every required objective
    done, and the check never completes it. *)
Lemma quest_without_objectives_stays_active :
  Quest.requireAllObjectives Sample.idleQuest = true
  /\ GameState.questStates Sample.start !! Quest.id Sample.idleQuest = Some "active"
  /\ requiredObjectivesDone Sample.start Sample.idleQuest
  /\ GameState.questStates (snd (checkQuestProgress Sample.game Sample.start))
       !! Quest.id Sample.idleQuest = Some "active".
Proof.
  split; [reflexivity|]. split; [reflexivity|]. split.
  - intros o [].
  - vm_compute. reflexivity.
Qed.

(** ** UNLOCK with a named key *)
Section UnlockWithKey.

Variable game : Game.t.

Lemma truthy_nonempty x : x <> EmptyString -> Js.truthy (Some x) = true.
Proof.
  intros H. unfold Js.truthy. apply negb_true_iff, String.eqb_neq. exact H.
Qed.

Lemma findKey_none required keys :
  (forall key, In key keys -> UniqueItem.id key <> required) ->
  findKey required keys = None.
Proof.
  intros H. unfold findKey.
  destruct (List.find _ keys) as [k|] eqn:E; [|reflexivity].
  apply find_some in E as [Hin Hid]. apply String.eqb_eq in Hid.
  destruct (H k Hin Hid).
Qed.

(** C7 (as amended).  UNLOCK aimed at a locked container that declares a
    required key, with a "with <key>" clause that matches at least one
    unique item of the active player's inventory and matches none whose id
    is the required key, answers "None of your keys fit the lock." and
    leaves the store as it was, so the container is still locked. *)
Theorem unlock_with_wrong_key s objectName keyName prep container required :
  objectName <> EmptyString -> keyName <> EmptyString -> prep <> EmptyString ->
  findUniqueItemAtLocation game s objectName = Some container ->
  UniqueItem.isContainer container = true ->
  GameState.isContainerLocked s (UniqueItem.id container) = true ->
  UniqueItem.requiredKey container = Some required -> required <> EmptyString ->
  matchingInventoryItems game s keyName <> [] ->
  (forall key, In key (matchingInventoryItems game s keyName) ->
               UniqueItem.id key <> required) ->
  cmdUnlock game s (Some objectName) (Some keyName) (Some prep)
  = ("None of your keys fit the lock.", s)
  /\ GameState.isContainerLocked
       (snd (cmdUnlock game s (Some objectName) (Some keyName) (Some prep)))
       (UniqueItem.id container) = true.
Proof.
  intros Ho Hk Hp Hfind Hcont Hlocked Hreq Hreq' Hsome Hnone.
  assert (Hcmd : cmdUnlock game s (Some objectName) (Some keyName) (Some prep)
                 = ("None of your keys fit the lock.", s)).
  { unfold cmdUnlock. rewrite (truthy_nonempty _ Ho). simpl.
    rewrite Hfind, Hcont. unfold cmdUnlockContainer.
    rewrite Hlocked, (truthy_nonempty _ Hk), (truthy_nonempty _ Hp).
    cbn -[findKey matchingInventoryItems].
    destruct (matchingInventoryItems game s keyName) as [|firstKey others] eqn:E;
      [contradiction|].
    rewrite Hreq, (truthy_nonempty _ Hreq').
    cbn -[findKey].
    rewrite (findKey_none _ _ Hnone). reflexivity. }
  rewrite Hcmd. split; [reflexivity|exact Hlocked].
Qed.

End UnlockWithKey.

Lemma unlock_with_wrong_key_witness :
  let s := Sample.after ["take rusty key"] in
  cmdUnlock Sample.game s (Some "chest") (Some "rusty key") (Some "with")
  = ("None of your keys fit the lock.", s)
  /\ GameState.isContainerLocked
       (snd (cmdUnlock Sample.game s (Some "chest") (Some "rusty key") (Some "with")))
       "chest" = true.
Proof.
  apply (unlock_with_wrong_key Sample.game (Sample.after ["take rusty key"])
           "chest" "rusty key" "with" Sample.chest "iron-key").
  - discriminate.
  - discriminate.
  - discriminate.
  - vm_compute. reflexivity.
  - reflexivity.
  - vm_compute. reflexivity.
  - reflexivity.
  - discriminate.
  - vm_compute. discriminate.
  - vm_compute. intros key [<-|[]]. discriminate.
Defined.

(** C7, the case the claim as stated misses: the clause "with key" matches
    the rusty key, whose id is not the required key, and the iron key as
    well; the chest is unlocked with the iron key. *)
Lemma unlock_with_ambiguous_key_succeeds :
  let s := Sample.after ["take rusty key"; "take iron key"] in
  let r := cmdUnlock Sample.game s (Some "chest") (Some "key") (Some "with") in
  UniqueItem.requiredKey Sample.chest = Some "iron-key"
  /\ GameState.isContainerLocked s "chest" = true
  /\ In Sample.rustyKey (matchingInventoryItems Sample.game s "key")
  /\ UniqueItem.id Sample.rustyKey <> "iron-key"
  /\ fst r = "You unlock the wooden chest with the iron key."
  /\ GameState.isContainerLocked (snd r) "chest" = false.
Proof.
  split; [reflexivity|]. split; [vm_compute; reflexivity|].
  split; [vm_compute; right; left; reflexivity|].
  split; [discriminate|]. split; vm_compute; reflexivity.
Qed.

(** ** Containers without an entry in [containerStates] *)
Section UninitialisedContainer.

Import GameState.

Variable game : Game.t.
Variable c : string.

Lemma initialised_reads s :
  uniqueItemLocations (initialised c s) = uniqueItemLocations s
  /\ genericItemStacks (initialised c s) = genericItemStacks s
  /\ players (initialised c s) = players s
  /\ activePlayerId (initialised c s) = activePlayerId s
  /\ flags (initialised c s) = flags s.
Proof. unfold initialised. destruct (containerStates s !! c); auto. Qed.


















End UninitialisedContainer.


(** The chest of the sample world, in a store without container entries:
    OPEN reports it open with its contents, CLOSE closes it, and TAKE takes
    from it. *)
Lemma chest_without_entry_behaves_open :
  fst (cmdOpen Sample.game Sample.bare (Some "chest"))
  = Js.join Js.nl ["The wooden chest is already open." +:+ Js.nl +:+ "Inside you see:";
                   "  3 gold coins"]
  /\ fst (cmdClose Sample.game Sample.bare (Some "chest")) = "You close the wooden chest."
  /\ fst (takeFromContainer Sample.game Sample.bare "gold coin" "chest" None)
     = "You take 3 gold coins from the wooden chest.".
Proof. split; [|split]; vm_compute; reflexivity. Qed.

(** ** Movement *)
Section Movement.

Import GameState.

Variable game : Game.t.
Variable viewLocation : GameState.t -> string -> Location.t -> LocationView.

(** The description of the location changes at most the quest table. *)
Lemma getLocationDescription_frame s :
  players (snd (getLocationDescription game viewLocation s)) = players s
  /\ activePlayerId (snd (getLocationDescription game viewLocation s)) = activePlayerId s
  /\ exitStates (snd (getLocationDescription game viewLocation s)) = exitStates s.
Proof.
  unfold getLocationDescription, checkQuestDiscovery.
  repeat (case_match; simpl; auto); simplify_eq; auto.
Qed.

Lemma movePlayer_active s p locationId :
  getActivePlayer s = Some p ->
  getActivePlayer (movePlayer s locationId None) = Some (moved p locationId)
  /\ activePlayerId (movePlayer s locationId None) = activePlayerId s
  /\ exitStates (movePlayer s locationId None) = exitStates s.
Proof.
  unfold getActivePlayer, movePlayer, pidOf, Js.orElse. simpl.
  intros ->. simpl. rewrite lookup_insert_eq. auto.
Qed.

Lemma arrive_player s p exit :
  getActivePlayer s = Some p ->
  getActivePlayer (snd (arrive game viewLocation s exit))
  = Some (moved p (Exit.leadsTo exit))
  /\ exitStates (snd (arrive game viewLocation s exit)) = exitStates s.
Proof.
  intros Hp. unfold arrive.
  destruct (movePlayer_active s p (Exit.leadsTo exit) Hp) as (Hm & Ha & He).
  match goal with |- context [getLocationDescription _ _ ?t] =>
    destruct (getLocationDescription_frame t) as (Hpl & Hact & Hex)
  end.
  unfold getActivePlayer in *. rewrite Hpl, Hact, Hex.
  destruct (String.eqb (Exit.leadsTo exit) "old-shed"); simpl; auto.
Qed.

(** At an exit whose entry is not locked, one level of [cmdGo] moves. *)
Lemma cmdGoFuel_open n s direction cur location exit :
  Js.truthy direction = true ->
  currentPlace s = Some cur ->
  Game.getLocation game cur = Some location ->
  List.find (exitMatchesGo (default EmptyString direction)) (Location.exits location)
  = Some exit ->
  isExitLocked s cur (Exit.direction exit) = false ->
  cmdGoFuel game viewLocation (S n) s direction
  = Some (arrive game viewLocation s exit).
Proof.
  intros Hd Hcur Hloc Hexit Hopen. cbn [cmdGoFuel].
  rewrite Hd. cbn [negb]. rewrite Hcur, Hloc, Hexit, Hopen. reflexivity.
Qed.

Lemma unlockExit_frame s cur dir :
  isExitLocked (unlockExit s cur dir) cur dir = false
  /\ getActivePlayer (unlockExit s cur dir) = getActivePlayer s
  /\ currentPlace (unlockExit s cur dir) = currentPlace s.
Proof.
  unfold isExitLocked, getExitState, unlockExit. simpl.
  rewrite lookup_insert_eq. auto.
Qed.

(** Two levels of fuel are enough for [cmdGo]: more fuel gives the same
    result, and the result is defined. *)
Lemma cmdGoFuel_enough n s direction :
  cmdGoFuel game viewLocation (S (S n)) s direction
  = cmdGoFuel game viewLocation 2 s direction
  /\ is_Some (cmdGoFuel game viewLocation 2 s direction).
Proof.
  cbn [cmdGoFuel].
  destruct (Js.truthy direction) eqn:Hd; cbn [negb]; [|split; eauto].
  destruct (currentPlace s) as [cur|] eqn:Hcur; [|split; eauto].
  destruct (Game.getLocation game cur) as [location|] eqn:Hloc; [|split; eauto].
  destruct (List.find _ (Location.exits location)) as [exit|] eqn:Hexit;
    [|split; eauto].
  destruct (isExitLocked s cur (Exit.direction exit)) eqn:Hlocked; [|split; eauto].
  destruct (_ && _); [|split; eauto].
  destruct (Game.getUniqueItem game _) as [item|]; [|split; eauto].
  destruct (unlockExit_frame s cur (Exit.direction exit)) as (Hopen & _ & Hplace).
  rewrite Hplace, Hcur, Hloc, Hexit, Hopen.
  destruct (arrive game viewLocation _ exit) as [[text|] s2]; split; eauto.
Qed.

Lemma cmdGo_fuel s direction :
  cmdGoFuel game viewLocation 2 s direction = Some (cmdGo game viewLocation s direction).
Proof.
  unfold cmdGo.
  destruct (cmdGoFuel_enough 0 s direction) as [_ [r ->]]. reflexivity.
Qed.

Lemma isExitLocked_exitStates s s' cur dir :
  exitStates s' = exitStates s -> isExitLocked s' cur dir = isExitLocked s cur dir.
Proof. intros H. unfold isExitLocked, getExitState. rewrite H. reflexivity. Qed.

(** C2.  GO with a direction, for an active player at a location of the
    game (every required item of the exit being an item of the game): the
    handler works on the first exit of the location whose lower-cased
    direction equals the requested one or starts with it.  When the entry
    of that exit in [exitStates] is locked and the player does not hold the
    exit's required item, the locked message is returned and the store is
    unchanged.  Otherwise, the entry being unlocked first when it was
    locked, the player moves: the exit is unlocked afterwards, the active
    player's location is the exit's destination, the destination is
    appended to the visited locations unless already there, and the turn
    count is one more. *)
Theorem cmdGo_moves s direction p location exit :
  direction <> EmptyString ->
  getActivePlayer s = Some p ->
  PlayerData.currentLocation p <> EmptyString ->
  Game.getLocation game (PlayerData.currentLocation p) = Some location ->
  List.find (exitMatchesGo direction) (Location.exits location) = Some exit ->
  (forall item, Exit.requiredItem exit = Some item ->
                is_Some (Game.getUniqueItem game item)) ->
  let cur := PlayerData.currentLocation p in
  let holdsKey :=
    Js.truthy (Exit.requiredItem exit)
    && isUniqueItemInInventory s (default EmptyString (Exit.requiredItem exit)) None in
  (In exit (Location.exits location)
   /\ (Js.toLowerCase (Exit.direction exit) = direction
       \/ Js.startsWith (Js.toLowerCase (Exit.direction exit)) direction = true))
  /\ (isExitLocked s cur (Exit.direction exit) = true -> holdsKey = false ->
      cmdGo game viewLocation s (Some direction)
      = (Response (Js.orDefault (Exit.lockedMessage exit) "That way is locked."), s))
  /\ (isExitLocked s cur (Exit.direction exit) = false \/ holdsKey = true ->
      let s' := snd (cmdGo game viewLocation s (Some direction)) in
      let p' := moved p (Exit.leadsTo exit) in
      isExitLocked s' cur (Exit.direction exit) = false
      /\ getActivePlayer s' = Some p'
      /\ PlayerData.currentLocation p' = Exit.leadsTo exit
      /\ PlayerData.turnCount p' = PlayerData.turnCount p + 1
      /\ PlayerData.visitedLocations p'
         = (if Js.arrayIncludes (PlayerData.visitedLocations p) (Exit.leadsTo exit)
            then PlayerData.visitedLocations p
            else (PlayerData.visitedLocations p ++ [Exit.leadsTo exit])%list)).
Proof.
  intros Hdir Hplayer Hcur Hloc Hexit Hitem cur holdsKey. subst cur.
  remember (PlayerData.currentLocation p) as cur eqn:Ecur.
  assert (Hplace : currentPlace s = Some cur).
  { unfold currentPlace, getCurrentLocation. rewrite Hplayer, <- Ecur.
    apply String.eqb_neq in Hcur. rewrite Hcur. reflexivity. }
  assert (Hd : Js.truthy (Some direction) = true) by (apply truthy_nonempty; exact Hdir).
  split; [|split].
  - apply find_some in Hexit as [Hin Hm]. split; [exact Hin|].
    unfold exitMatchesGo in Hm. apply orb_true_iff in Hm as [Hm|Hm]; [left|right; exact Hm].
    apply String.eqb_eq. exact Hm.
  - intros Hlocked Hno. unfold cmdGo. cbn [cmdGoFuel].
    rewrite Hd. cbn [negb default from_option id].
    rewrite Hplace, Hloc, Hexit, Hlocked.
    fold holdsKey. rewrite Hno. reflexivity.
  - intros Hcase s' p'.
    assert (Hs' : exists t, getActivePlayer t = Some p
                            /\ isExitLocked t cur (Exit.direction exit) = false
                            /\ s' = snd (arrive game viewLocation t exit)).
    { destruct (isExitLocked s cur (Exit.direction exit)) eqn:Hlocked.
      - destruct Hcase as [Hcase|Hholds]; [discriminate|].
        destruct (unlockExit_frame s cur (Exit.direction exit)) as (Hopen & Hact & Hpl).
        exists (unlockExit s cur (Exit.direction exit)).
        split; [rewrite Hact; exact Hplayer|]. split; [exact Hopen|].
        unfold s', cmdGo. cbn [cmdGoFuel].
        rewrite Hd. cbn [negb default from_option id].
        rewrite Hplace, Hloc, Hexit, Hlocked.
        fold holdsKey. rewrite Hholds.
        assert (Hr : exists r, Exit.requiredItem exit = Some r).
        { unfold holdsKey in Hholds. apply andb_true_iff in Hholds as [Ht _].
          destruct (Exit.requiredItem exit) as [r|]; [eauto|discriminate]. }
        destruct Hr as [r Hr]. destruct (Hitem r Hr) as [item Hi].
        rewrite Hr. cbn [default from_option id]. rewrite Hi.
        rewrite Hpl, Hplace, Hloc, Hexit, Hopen.
        destruct (arrive game viewLocation _ exit) as [[text|] s2]; reflexivity.
      - exists s. split; [exact Hplayer|]. split; [exact Hlocked|].
        unfold s', cmdGo.
        rewrite (cmdGoFuel_open 1 s (Some direction) cur location exit Hd Hplace
                   Hloc Hexit Hlocked).
        reflexivity. }
    destruct Hs' as (t & Ht & Hopen & ->).
    destruct (arrive_player t p exit Ht) as [Hp' Hex].
    split; [rewrite (isExitLocked_exitStates _ _ _ _ Hex); exact Hopen|].
    split; [exact Hp'|]. repeat split.
Qed.

End Movement.

Lemma cmdGo_moves_witness :
  cmdGo Sample.game Sample.view Sample.start (Some "n")
  = (Response "That way is locked.", Sample.start)
  /\ GameState.getActivePlayer
       (snd (cmdGo Sample.game Sample.view (Sample.after ["take iron key"]) (Some "n")))
     = Some (PlayerData.mk "yard" 0 1 ["hall"; "yard"] ∅).
Proof.
  assert (Hitem : forall item, Exit.requiredItem Sample.northExit = Some item ->
                    is_Some (Game.getUniqueItem Sample.game item))
    by (intros item [= <-]; vm_compute; eauto).
  split.
  - apply (proj1 (proj2 (cmdGo_moves Sample.game Sample.view Sample.start "n"
                           (PlayerData.mk "hall" 0 0 ["hall"] ∅) Sample.hall
                           Sample.northExit ltac:(discriminate)
                           ltac:(vm_compute; reflexivity) ltac:(discriminate)
                           ltac:(vm_compute; reflexivity)
                           ltac:(vm_compute; reflexivity) Hitem)));
      vm_compute; reflexivity.
  - apply (proj2 (proj2 (cmdGo_moves Sample.game Sample.view
                           (Sample.after ["take iron key"]) "n"
                           (PlayerData.mk "hall" 0 0 ["hall"] ∅) Sample.hall
                           Sample.northExit ltac:(discriminate)
                           ltac:(vm_compute; reflexivity) ltac:(discriminate)
                           ltac:(vm_compute; reflexivity)
                           ltac:(vm_compute; reflexivity) Hitem))).
    right. vm_compute. reflexivity.
Defined.

(** A quest with a custom completion check is judged by that check alone:
    its only required objective has its flag, and it stays active. *)
Lemma quest_with_custom_check_stays_active :
  requiredObjectivesDone Sample.questsUnderWay Sample.guardedQuest
  /\ GameState.questStates Sample.questsUnderWay !! "guarded" = Some "active"
  /\ GameState.questStates (snd (checkQuestProgress Sample.questGame Sample.questsUnderWay))
       !! "guarded" = Some "active".
Proof.
  split; [intros o [<-|[]] _; reflexivity|]. split; vm_compute; reflexivity.
Qed.

(** Two quests with one id share the entry of the quest table: the second
    twin's required objective is not done, and the entry is completed by
    the first twin. *)
Lemma quest_sharing_an_id_is_completed_by_its_twin :
  Quest.id Sample.twinB = Quest.id Sample.twinA
  /\ ~ requiredObjectivesDone Sample.questsUnderWay Sample.twinB
  /\ GameState.questStates Sample.questsUnderWay !! Quest.id Sample.twinB = Some "active"
  /\ GameState.questStates (snd (checkQuestProgress Sample.questGame Sample.questsUnderWay))
       !! Quest.id Sample.twinB = Some "completed".
Proof.
  split; [reflexivity|]. split.
  - intros H. specialize (H _ (or_introl eq_refl) eq_refl). vm_compute in H. discriminate.
  - split; vm_compute; reflexivity.
Qed.
